(** * Task-definition scripts of [infra/scripts]

    A shallow embedding of [update_td.py] and [deploy_ecs.py].

    Both scripts hold the document they work on as Python objects that
    [json.load] / [json.loads] built: dicts and lists are mutable objects
    reached through references, so the embedding has an object store and
    the transform is a computation over it.  The store is a list of
    objects, a reference is an index into it, and a new object is appended. *)

From Stdlib Require Import ZArith Ascii.
From stdpp Require Import base option list strings gmap fin_maps.


(** ** Values and the object store *)

Abbreviation loc := nat.

(** A Python value as [json.load] produces it.  [VFloat] carries the bit
    pattern of the double; the scripts never look at it. *)
Inductive value :=
  | VNone
  | VBool (b : bool)
  | VInt (z : Z)
  | VFloat (bits : Z)
  | VStr (s : string)
  | VRef (l : loc).

#[global] Instance value_eq_dec : EqDecision value.
Proof. solve_decision. Defined.

Inductive obj :=
  | ODict (d : gmap string value)
  | OList (vs : list value).

Abbreviation dict := (gmap string value).
Abbreviation heap := (list obj).

(** ** Exceptions *)

Inductive exn :=
  | KeyError (key : string)      (* d[k] with k not a key of the dict d *)
  | TypeError                    (* subscript or iteration of the wrong kind of object *)
  | AttributeError               (* a method the object does not have *)
  | IndexError                   (* l[i] out of range *)
  | ValueError                   (* json.dumps of a cyclic object; a NUL in an argument of a command *)
  | OSError                      (* subprocess.run cannot start the tool *)
  | JSONDecodeError              (* json.loads of text that is not JSON *)
  | NoObject.                    (* a reference to no object: no Python state has one *)

Inductive result (A : Type) :=
  | Ok (a : A)
  | Raise (e : exn).
Arguments Ok {A} a.
Arguments Raise {A} e.

Definition is_ok {A} (r : result A) : bool :=
  match r with Ok _ => true | Raise _ => false end.

(** ** Computations over a state, with exceptions *)

Module Py.

Definition M (S A : Type) : Type := S → result A * S.

Definition ret {S A} (a : A) : M S A := λ s, (Ok a, s).

Definition raise {S A} (e : exn) : M S A := λ s, (Raise e, s).

Definition bind {S A B} (m : M S A) (k : A → M S B) : M S B :=
  λ s, match m s with
       | (Ok a, s') => k a s'
       | (Raise e, s') => (Raise e, s')
       end.

(** [for x in xs: body x] over the elements [xs] the iterator yields. *)
Fixpoint for_each {S A} (xs : list A) (body : A → M S unit) : M S unit :=
  match xs with
  | [] => ret ()
  | x :: xs' => bind (body x) (λ _, for_each xs' body)
  end.

End Py.

(** stdpp's notations [x ← m; k] and [m;; k] for the sequencing of
    statements. *)
#[global] Instance M_ret {S} : MRet (Py.M S) := λ A, @Py.ret S A.
#[global] Instance M_bind {S} : MBind (Py.M S) := λ A B k m, Py.bind m k.

(** ** Object operations *)

Abbreviation H := (Py.M heap).

(** [{...}] and [[]]: a new object, at a reference nothing else holds. *)
Definition alloc (o : obj) : H value :=
  λ h, (Ok (VRef (length h)), h ++ [o]).

(** [v[k]] for a string [k]. *)
Definition subscript (v : value) (k : string) : H value :=
  λ h, match v with
       | VRef l =>
           match h !! l with
           | Some (ODict d) =>
               match d !! k with
               | Some x => (Ok x, h)
               | None => (Raise (KeyError k), h)
               end
           | Some (OList _) => (Raise TypeError, h)
           | None => (Raise NoObject, h)
           end
       | _ => (Raise TypeError, h)
       end.

(** [v.get(k)]: [None] when [k] is not a key. *)
Definition dict_get (v : value) (k : string) : H value :=
  λ h, match v with
       | VRef l =>
           match h !! l with
           | Some (ODict d) => (Ok (default VNone (d !! k)), h)
           | Some (OList _) => (Raise AttributeError, h)
           | None => (Raise NoObject, h)
           end
       | _ => (Raise AttributeError, h)
       end.

(** [v.get(k, [])]: the default is a new empty list.  Python builds that
    list before the call whether or not it is used; when [k] is a key the
    list is unreachable at once, and the store leaves it out. *)
Definition dict_get_or_new_list (v : value) (k : string) : H value :=
  λ h, match v with
       | VRef l =>
           match h !! l with
           | Some (ODict d) =>
               match d !! k with
               | Some x => (Ok x, h)
               | None => alloc (OList []) h
               end
           | Some (OList _) => (Raise AttributeError, h)
           | None => (Raise NoObject, h)
           end
       | _ => (Raise AttributeError, h)
       end.

(** [v[k] = x] for a string [k]. *)
Definition store_item (v : value) (k : string) (x : value) : H unit :=
  λ h, match v with
       | VRef l =>
           match h !! l with
           | Some (ODict d) => (Ok (), <[l := ODict (<[k := x]> d)]> h)
           | Some (OList _) => (Raise TypeError, h)
           | None => (Raise NoObject, h)
           end
       | _ => (Raise TypeError, h)
       end.

(** The one-character strings of [s], as iterating a [str] yields them. *)
Fixpoint chars (s : string) : list value :=
  match s with
  | EmptyString => []
  | String c s' => VStr (String c EmptyString) :: chars s'
  end.

(** What [for x in v] iterates over: the elements of a list, the keys of
    a dict, the characters of a string; nothing else is iterable.  The
    loops of the scripts never change the object they iterate over. *)
Definition iterate (v : value) : H (list value) :=
  λ h, match v with
       | VRef l =>
           match h !! l with
           | Some (OList vs) => (Ok vs, h)
           | Some (ODict d) => (Ok (VStr <$> (map_to_list d).*1), h)
           | None => (Raise NoObject, h)
           end
       | VStr s => (Ok (chars s), h)
       | _ => (Raise TypeError, h)
       end.

(** ** Strings *)

(** [s.split(sep)] for a one-character separator. *)
Fixpoint split (sep : ascii) (s : string) : list string :=
  match s with
  | EmptyString => [EmptyString]
  | String c s' =>
      if Ascii.eqb c sep then EmptyString :: split sep s'
      else match split sep s' with
           | x :: xs => String c x :: xs
           | [] => [String c EmptyString]
           end
  end.

(** [v.split(':')[0]]: only a [str] has [split]. *)
Definition split_colon_first (v : value) : H string :=
  match v with
  | VStr s =>
      match split ":" s !! 0%nat with
      | Some x => Py.ret x
      | None => Py.raise IndexError
      end
  | _ => Py.raise AttributeError
  end.

(** ** The transform shared by [update_td] and [deploy] *)

(** [api_fields] of both scripts. *)
Definition api_fields : list string :=
  [ "taskRoleArn"; "executionRoleArn"; "networkMode";
    "placementConstraints"; "requiresCompatibilities";
    "cpu"; "memory"; "runtimePlatform" ].

(** The dict display
    [{'family': td['family'],
      'containerDefinitions': td['containerDefinitions'],
      'volumes': td.get('volumes', [])}]. *)
Definition build_td (td : value) : H value :=
  family ← subscript td "family";
  cds ← subscript td "containerDefinitions";
  volumes ← dict_get_or_new_list td "volumes";
  alloc (ODict (<["volumes" := volumes]>
                (<["containerDefinitions" := cds]>
                 (<["family" := family]> ∅)))).

(** [for field in api_fields: val = td.get(field); if val is not None: clean_td[field] = val] *)
Definition copy_api_fields (td clean_td : value) : H unit :=
  Py.for_each api_fields (λ field,
    val ← dict_get td field;
    match val with
    | VNone => Py.ret ()
    | _ => store_item clean_td field val
    end).

(** [for cd in clean_td['containerDefinitions']:
       image_base = cd['image'].split(':')[0]
       cd['image'] = f"{image_base}:{new_image_tag}"] *)
Definition update_image (new_image_tag : string) (cd : value) : H unit :=
  image ← subscript cd "image";
  image_base ← split_colon_first image;
  store_item cd "image" (VStr (image_base +:+ ":" +:+ new_image_tag)).

Definition update_images (new_image_tag : string) (clean_td : value) : H unit :=
  seq ← subscript clean_td "containerDefinitions";
  cds ← iterate seq;
  Py.for_each cds (update_image new_image_tag).

(** Lines 10-31 of [update_td.py] and lines 17-39 of [deploy_ecs.py],
    which differ in the name of the new dict only. *)
Definition sanitize_and_retag (new_image_tag : string) (td : value) : H value :=
  clean_td ← build_td td;
  copy_api_fields td clean_td;;
  update_images new_image_tag clean_td;;
  Py.ret clean_td.

(** [update_td] between [json.load] and [json.dump]: [data] is the loaded
    file, the result is the object written back. *)
Definition update_td (data : value) (new_image_tag : string) : H value :=
  td ← subscript data "taskDefinition";
  sanitize_and_retag new_image_tag td.

(** ** [deploy_ecs.py]: the outside world *)

(** What [subprocess.run(cmd, capture_output=True, text=True)] returns. *)
Record CompletedProcess := {
  returncode : Z;
  stdout : string;
  stderr : string
}.

(** What a run of the script does that can be seen from outside: the
    commands it runs, each with what came back, and the lines it prints. *)
Inductive event :=
  | EvRun (cmd : list string) (res : CompletedProcess)
  | EvPrint (line : string).

Record state (World : Type) := {
  st_heap : heap;
  st_world : World;
  st_out : list event
}.
Arguments st_heap {World} s.
Arguments st_world {World} s.
Arguments st_out {World} s.

(** A NUL among the characters of [s]. *)
Fixpoint has_nul (s : string) : bool :=
  match s with
  | EmptyString => false
  | String c s' => Ascii.eqb c "000" || has_nul s'
  end.

Section Deploy.

(** The [aws] tool and the [json] module are outside the repository:
    [subprocess.run] answers a command from the state of the world it
    runs in, with what the tool gave back, or raises, as it does when the
    tool cannot be started; [json.loads] builds new objects from a text
    or raises, [json.dumps] writes an object out or raises, and
    [format_obj] is what an f-string makes of a value that is not a
    [str]. *)
Context {World : Type}.
Variable subprocess_run : list string → World → result CompletedProcess * World.
Variable json_loads : string → H value.
Variable json_dumps : value → heap → result string.
Variable format_obj : heap → value → string.

Abbreviation D := (Py.M (state World)).

Definition on_heap {A} (m : H A) : D A :=
  λ s, let '(r, h') := m (st_heap s) in
       (r, {| st_heap := h'; st_world := st_world s; st_out := st_out s |}).

(** [subprocess.run(cmd, capture_output=True, text=True)]: a NUL in an
    argument raises [ValueError] before anything is started; a call that
    raises gives nothing back. *)
Definition run (cmd : list string) : D CompletedProcess :=
  λ s, if existsb has_nul cmd then (Raise ValueError, s)
       else
         let '(r, w') := subprocess_run cmd (st_world s) in
         match r with
         | Ok res =>
             (Ok res, {| st_heap := st_heap s; st_world := w';
                         st_out := st_out s ++ [EvRun cmd res] |})
         | Raise e =>
             (Raise e, {| st_heap := st_heap s; st_world := w';
                          st_out := st_out s |})
         end.

Definition print (line : string) : D unit :=
  λ s, (Ok (), {| st_heap := st_heap s; st_world := st_world s;
                  st_out := st_out s ++ [EvPrint line] |}).

Definition dumps (v : value) : D string :=
  λ s, (json_dumps v (st_heap s), s).

(** [f"{v}"] *)
Definition format (v : value) : D string :=
  λ s, (Ok (match v with VStr x => x | _ => format_obj (st_heap s) v end), s).

(** An element of the command list has to be a [str]:
    [subprocess.run] raises [TypeError] on anything else before it starts
    the tool, and [ValueError] on a [str] with a NUL in it, which is the
    check [run] makes.  The service name comes before the identifier in
    the command and has gone through [run] in the describe call, so the
    identifier is the first argument that can be refused. *)
Definition as_arg (v : value) : D string :=
  match v with
  | VStr x => Py.ret x
  | _ => Py.raise TypeError
  end.

(** [new_image_tag] of [deploy]. *)
Definition deploy_image_tag : string := "202601151258".

Definition describe_cmd (service_name : string) : list string :=
  ["aws"; "ecs"; "describe-task-definition"; "--task-definition"; service_name].

Definition register_cmd (td_json : string) : list string :=
  ["aws"; "ecs"; "register-task-definition"; "--cli-input-json"; td_json].

Definition update_service_cmd (service_name new_td_arn : string) : list string :=
  ["aws"; "ecs"; "update-service"; "--cluster"; service_name;
   "--service"; service_name; "--task-definition"; new_td_arn].

(** [deploy(service_name)]; a [return] ends the function with [None]. *)
Definition deploy (service_name : string) : D unit :=
  (* 1. Get current TD *)
  res ← run (describe_cmd service_name);
  if bool_decide (returncode res ≠ 0%Z) then
    print ("Error describing TD: " +:+ stderr res)
  else
    data ← on_heap (json_loads (stdout res));
    td ← on_heap (subscript data "taskDefinition");
    (* 2. Build new TD, 3. Update Image *)
    new_td ← on_heap (sanitize_and_retag deploy_image_tag td);
    (* 4. Register new TD *)
    td_json ← dumps new_td;
    res ← run (register_cmd td_json);
    if bool_decide (returncode res ≠ 0%Z) then
      print ("Error registering TD: " +:+ stderr res)
    else
      reg_data ← on_heap (json_loads (stdout res));
      reg_td ← on_heap (subscript reg_data "taskDefinition");
      new_td_arn ← on_heap (subscript reg_td "taskDefinitionArn");
      shown ← format new_td_arn;
      print ("Registered new TD: " +:+ shown);;
      (* 5. Update Service *)
      arn ← as_arg new_td_arn;
      res ← run (update_service_cmd service_name arn);
      if bool_decide (returncode res ≠ 0%Z) then
        print ("Error updating service: " +:+ stderr res)
      else
        print ("Service " +:+ service_name +:+ " updated successfully!").

(** The [__main__] block of [deploy_ecs.py]. *)
Definition main : D unit :=
  deploy "parrot-dev-backend";;
  deploy "parrot-dev-frontend".

End Deploy.

(** ** Vocabulary of the properties *)

(** The text before the first colon of [s]; all of [s] when it has none. *)
Fixpoint before_first_colon (s : string) : string :=
  match s with
  | EmptyString => EmptyString
  | String c s' =>
      if Ascii.eqb c ":" then EmptyString else String c (before_first_colon s')
  end.

Fixpoint has_colon (s : string) : bool :=
  match s with
  | EmptyString => false
  | String c s' => Ascii.eqb c ":" || has_colon s'
  end.

(** [<prefix>:<new_tag>] *)
Definition retag (new_tag image : string) : string :=
  before_first_colon image +:+ ":" +:+ new_tag.

(** The object a container definition becomes: the same dict with its
    image retagged.  Any other object is left as it is. *)
Definition retag_obj (new_tag : string) (o : obj) : obj :=
  match o with
  | ODict d =>
      match d !! "image" with
      | Some (VStr s) => ODict (<["image" := VStr (retag new_tag s)]> d)
      | _ => o
      end
  | OList _ => o
  end.

Definition get_dict (h : heap) (v : value) : option dict :=
  match v with
  | VRef l => match h !! l with Some (ODict d) => Some d | _ => None end
  | _ => None
  end.

Definition get_list (h : heap) (v : value) : option (list value) :=
  match v with
  | VRef l => match h !! l with Some (OList vs) => Some vs | _ => None end
  | _ => None
  end.

(** The image of the container definition [v], when [v] is a dict that
    has one and it is a string. *)
Definition image_of (h : heap) (v : value) : option string :=
  match get_dict h v ≫= (.!! "image") with
  | Some (VStr s) => Some s
  | _ => None
  end.

(** The container definitions of the document [td]. *)
Definition containers_of (h : heap) (td : value) : option (list value) :=
  d ← get_dict h td; seq ← d !! "containerDefinitions"; get_list h seq.

(** A document the transform is meant for: a dict with [family] and
    [containerDefinitions], the latter a list of dicts that each have a
    string as their image. *)
Definition valid_td (h : heap) (td : value) : bool :=
  match get_dict h td, containers_of h td with
  | Some d, Some cds =>
      bool_decide (is_Some (d !! "family")) &&
      forallb (λ cd, bool_decide (is_Some (image_of h cd))) cds
  | _, _ => false
  end.

(** The dict of the display in [build_td]. *)
Definition base_dict (family cds volumes : value) : dict :=
  <["volumes" := volumes]>
    (<["containerDefinitions" := cds]> (<["family" := family]> ∅)).

(** [acc] after the loop over the optional [fields] of [d]. *)
Definition copy_fields (d : dict) (fields : list string) (acc : dict) : dict :=
  foldl (λ acc field,
           match d !! field with
           | None | Some VNone => acc
           | Some val => <[field := val]> acc
           end) acc fields.

Arguments base_dict : simpl never.
Arguments copy_fields : simpl never.

Definition required_fields : list string := ["family"; "containerDefinitions"].

(** The keys the clean document of [d] is to have. *)
Definition clean_key (d : dict) (k : string) : Prop :=
  k ∈ ["family"; "containerDefinitions"; "volumes"] ∨
  (k ∈ api_fields ∧ ∃ v, d !! k = Some v ∧ v ≠ VNone).

(** No object of the store [h] has changed in [h']. *)
Definition input_unchanged (h h' : heap) : Prop :=
  ∀ l o, h !! l = Some o → h' !! l = Some o.

(** What a key may hold in two runs that differ in the tag only: the same
    thing, or a string in both. *)
Definition same_kind (a b : option value) : Prop :=
  a = b ∨ ∃ s1 s2, a = Some (VStr s1) ∧ b = Some (VStr s2).

Definition same_shape_obj (o1 o2 : obj) : Prop :=
  match o1, o2 with
  | ODict d1, ODict d2 => ∀ k, same_kind (d1 !! k) (d2 !! k)
  | OList vs1, OList vs2 => vs1 = vs2
  | _, _ => False
  end.

Definition same_shape (h1 h2 : heap) : Prop := Forall2 same_shape_obj h1 h2.

(** What a run added to the output. *)
Definition new_events {World} (before after : state World) : list event :=
  drop (length (st_out before)) (st_out after).

(** An external call came back with a return code other than zero. *)
Definition call_failed (e : event) : bool :=
  match e with
  | EvRun _ res => bool_decide (returncode res ≠ 0%Z)
  | EvPrint _ => false
  end.

Definition diagnostics : list string :=
  ["Error describing TD: "; "Error registering TD: "; "Error updating service: "].

(** How the output of a run ends when an external call has failed: with
    that call, the first to fail, and the diagnostic that carries what
    the tool wrote to its error stream. *)
Definition ends_reported (evs : list event) : Prop :=
  ∃ pre cmd res diag,
    evs = pre ++ [EvRun cmd res; EvPrint (diag +:+ stderr res)] ∧
    returncode res ≠ 0%Z ∧ diag ∈ diagnostics ∧
    existsb call_failed pre = false.

(** The service a [describe-task-definition] call asks for. *)
Definition described (e : event) : option string :=
  match e with
  | EvRun ["aws"; "ecs"; "describe-task-definition"; "--task-definition"; name] _ =>
      Some name
  | _ => None
  end.

(** ** Sample documents and worlds *)

(** [{"family": "web", "containerDefinitions": [{"image": "repo:old",
    "name": "app"}, {"image": "nginx"}], "cpu": "256", "memory": null,
    "revision": 3}] at reference 3. *)
Definition sample_dict : dict :=
  <["family" := VStr "web"]>
    (<["containerDefinitions" := VRef 2]>
      (<["cpu" := VStr "256"]>
        (<["memory" := VNone]>
          (<["revision" := VInt 3]> ∅)))).

Definition sample_heap : heap :=
  [ ODict (<["image" := VStr "repo:old"]> (<["name" := VStr "app"]> ∅));
    ODict (<["image" := VStr "nginx"]> ∅);
    OList [VRef 0; VRef 1];
    ODict sample_dict ].

Definition sample_td : value := VRef 3.

(** [{"containerDefinitions": []}] at reference 1: no family. *)
Definition no_family_heap : heap :=
  [ OList []; ODict (<["containerDefinitions" := VRef 0]> ∅) ].

(** [{"family": "web", "containerDefinitions": [{"name": "app"}]}] at
    reference 2: the container definition has no image. *)
Definition no_image_heap : heap :=
  [ ODict (<["name" := VStr "app"]> ∅);
    OList [VRef 0];
    ODict (<["family" := VStr "web"]> (<["containerDefinitions" := VRef 1]> ∅)) ].

(** A world that answers the calls from a script of answers, one after
    the other, and in which the tool cannot be started once the script
    has run out. *)
Definition scripted_run (cmd : list string) (w : list CompletedProcess)
  : result CompletedProcess * list CompletedProcess :=
  match w with
  | res :: w' => (Ok res, w')
  | [] => (Raise OSError, [])
  end.

(** A decoder that knows one text, [{}], the empty object. *)
Definition sample_loads (text : string) : H value :=
  if bool_decide (text = "{}") then alloc (ODict ∅) else Py.raise JSONDecodeError.

(** A decoder for which every answer is the envelope of an empty
    document, [{"taskDefinition": {}}]. *)
Definition envelope_loads (text : string) : H value :=
  td ← alloc (ODict ∅);
  alloc (ODict (<["taskDefinition" := td]> ∅)).

Definition sample_dumps (v : value) (h : heap) : result string := Ok "{}".

Definition sample_format (h : heap) (v : value) : string := "?".

Definition start (w : list CompletedProcess) : state (list CompletedProcess) :=
  {| st_heap := []; st_world := w; st_out := [] |}.

Definition failed : CompletedProcess :=
  {| returncode := 254; stdout := ""; stderr := "not found" |}.

Definition answered (text : string) : CompletedProcess :=
  {| returncode := 0; stdout := text; stderr := "" |}.

(** ** More vocabulary *)

(** What the image loop meets at the container definition [cd]: a dict
    with a string as its image ([None]), or the exception the body of
    the loop raises there. *)
Definition container_error (h : heap) (cd : value) : option exn :=
  match cd with
  | VRef l =>
      match h !! l with
      | Some (ODict d) =>
          match d !! "image" with
          | Some (VStr _) => None
          | Some _ => Some AttributeError
          | None => Some (KeyError "image")
          end
      | Some (OList _) => Some TypeError
      | None => Some NoObject
      end
  | _ => Some TypeError
  end.

(** [{"family": "web", "containerDefinitions": [{"image": "repo:old"},
    {"image": null}, {"image": "nginx"}], "volumes": null}] at
    reference 4: the second container definition has no usable image. *)
Definition null_image_dict : dict :=
  <["family" := VStr "web"]>
    (<["containerDefinitions" := VRef 3]>
      (<["volumes" := VNone]> ∅)).

Definition null_image_heap : heap :=
  [ ODict (<["image" := VStr "repo:old"]> ∅);
    ODict (<["image" := VNone]> ∅);
    ODict (<["image" := VStr "nginx"]> ∅);
    OList [VRef 0; VRef 1; VRef 2];
    ODict null_image_dict ].

(** The sample document in its envelope, [{"taskDefinition": ...}], at
    reference 4. *)
Definition sample_file_heap : heap :=
  sample_heap ++ [ODict (<["taskDefinition" := sample_td]> ∅)].

(** A value the image loop iterates over without a single step: the
    empty string, or an empty dict. *)
Definition empty_iterable (h : heap) (v : value) : bool :=
  match v with
  | VStr s => bool_decide (s = "")
  | VRef l =>
      match h !! l with
      | Some (ODict d) => bool_decide (d = ∅)
      | _ => false
      end
  | _ => false
  end.

(** [{"family": "web", "containerDefinitions": ""}] at reference 0. *)
Definition text_containers_dict : dict :=
  <["family" := VStr "web"]> (<["containerDefinitions" := VStr ""]> ∅).

Definition text_containers_heap : heap := [ODict text_containers_dict].

(** ** The paths of [deploy] *)

(** The external calls among some events, each with what came back. *)
Definition calls (evs : list event) : list (list string * CompletedProcess) :=
  omap (λ e, match e with
             | EvRun cmd res => Some (cmd, res)
             | EvPrint _ => None
             end) evs.

(** The texts printed among some events, one for each call of [print]. *)
Definition printed (evs : list event) : list string :=
  omap (λ e, match e with
             | EvRun _ _ => None
             | EvPrint line => Some line
             end) evs.

Section DeployPaths.

Context {World : Type}.
Variable subprocess_run : list string → World → result CompletedProcess * World.
Variable json_loads : string → H value.
Variable json_dumps : value → heap → result string.
Variable format_obj : heap → value → string.

(** Lines 13-39 of [deploy_ecs.py]: from the answer of the describe
    call to the new document. *)
Definition fetch_and_retag (answer : string) : H value :=
  data ← json_loads answer;
  td ← subscript data "taskDefinition";
  sanitize_and_retag deploy_image_tag td.

(** Lines 48-49 of [deploy_ecs.py]: from the answer of the register
    call to the identifier of the new definition. *)
Definition read_arn (answer : string) : H value :=
  reg_data ← json_loads answer;
  reg_td ← subscript reg_data "taskDefinition";
  subscript reg_td "taskDefinitionArn".

(** The eleven ways a call of [deploy] for the service [s] goes from
    the state [st]: what it returns or raises, and the state it leaves. *)
Inductive deploy_path (s : string) (st : state World)
  : result unit → state World → Prop :=
  | path_describe_raised e w1 :
      run subprocess_run (describe_cmd s) st
      = (Raise e, {| st_heap := st_heap st; st_world := w1;
                     st_out := st_out st |}) →
      deploy_path s st (Raise e)
        {| st_heap := st_heap st; st_world := w1; st_out := st_out st ++ [] |}
  | path_describe_failed res1 w1 :
      subprocess_run (describe_cmd s) (st_world st) = (Ok res1, w1) →
      returncode res1 ≠ 0%Z →
      deploy_path s st (Ok ())
        {| st_heap := st_heap st; st_world := w1;
           st_out := st_out st ++
             [EvRun (describe_cmd s) res1;
              EvPrint ("Error describing TD: " +:+ stderr res1)] |}
  | path_transform_raised res1 w1 e h1 :
      subprocess_run (describe_cmd s) (st_world st) = (Ok res1, w1) →
      returncode res1 = 0%Z →
      fetch_and_retag (stdout res1) (st_heap st) = (Raise e, h1) →
      deploy_path s st (Raise e)
        {| st_heap := h1; st_world := w1;
           st_out := st_out st ++ [EvRun (describe_cmd s) res1] |}
  | path_dumps_raised res1 w1 new_td h1 e :
      subprocess_run (describe_cmd s) (st_world st) = (Ok res1, w1) →
      returncode res1 = 0%Z →
      fetch_and_retag (stdout res1) (st_heap st) = (Ok new_td, h1) →
      json_dumps new_td h1 = Raise e →
      deploy_path s st (Raise e)
        {| st_heap := h1; st_world := w1;
           st_out := st_out st ++ [EvRun (describe_cmd s) res1] |}
  | path_register_raised res1 w1 new_td h1 td_json e w2 :
      subprocess_run (describe_cmd s) (st_world st) = (Ok res1, w1) →
      returncode res1 = 0%Z →
      fetch_and_retag (stdout res1) (st_heap st) = (Ok new_td, h1) →
      json_dumps new_td h1 = Ok td_json →
      run subprocess_run (register_cmd td_json)
        {| st_heap := h1; st_world := w1;
           st_out := st_out st ++ [EvRun (describe_cmd s) res1] |}
      = (Raise e, {| st_heap := h1; st_world := w2;
                     st_out := st_out st ++ [EvRun (describe_cmd s) res1] |}) →
      deploy_path s st (Raise e)
        {| st_heap := h1; st_world := w2;
           st_out := st_out st ++ [EvRun (describe_cmd s) res1] |}
  | path_register_failed res1 w1 new_td h1 td_json res2 w2 :
      subprocess_run (describe_cmd s) (st_world st) = (Ok res1, w1) →
      returncode res1 = 0%Z →
      fetch_and_retag (stdout res1) (st_heap st) = (Ok new_td, h1) →
      json_dumps new_td h1 = Ok td_json →
      subprocess_run (register_cmd td_json) w1 = (Ok res2, w2) →
      returncode res2 ≠ 0%Z →
      deploy_path s st (Ok ())
        {| st_heap := h1; st_world := w2;
           st_out := st_out st ++
             [EvRun (describe_cmd s) res1;
              EvRun (register_cmd td_json) res2;
              EvPrint ("Error registering TD: " +:+ stderr res2)] |}
  | path_arn_raised res1 w1 new_td h1 td_json res2 w2 e h2 :
      subprocess_run (describe_cmd s) (st_world st) = (Ok res1, w1) →
      returncode res1 = 0%Z →
      fetch_and_retag (stdout res1) (st_heap st) = (Ok new_td, h1) →
      json_dumps new_td h1 = Ok td_json →
      subprocess_run (register_cmd td_json) w1 = (Ok res2, w2) →
      returncode res2 = 0%Z →
      read_arn (stdout res2) h1 = (Raise e, h2) →
      deploy_path s st (Raise e)
        {| st_heap := h2; st_world := w2;
           st_out := st_out st ++
             [EvRun (describe_cmd s) res1;
              EvRun (register_cmd td_json) res2] |}
  | path_arn_not_str res1 w1 new_td h1 td_json res2 w2 arn h2 :
      subprocess_run (describe_cmd s) (st_world st) = (Ok res1, w1) →
      returncode res1 = 0%Z →
      fetch_and_retag (stdout res1) (st_heap st) = (Ok new_td, h1) →
      json_dumps new_td h1 = Ok td_json →
      subprocess_run (register_cmd td_json) w1 = (Ok res2, w2) →
      returncode res2 = 0%Z →
      read_arn (stdout res2) h1 = (Ok arn, h2) →
      (∀ a, arn ≠ VStr a) →
      deploy_path s st (Raise TypeError)
        {| st_heap := h2; st_world := w2;
           st_out := st_out st ++
             [EvRun (describe_cmd s) res1;
              EvRun (register_cmd td_json) res2;
              EvPrint ("Registered new TD: " +:+ format_obj h2 arn)] |}
  | path_update_raised res1 w1 new_td h1 td_json res2 w2 arn h2 e w3 :
      subprocess_run (describe_cmd s) (st_world st) = (Ok res1, w1) →
      returncode res1 = 0%Z →
      fetch_and_retag (stdout res1) (st_heap st) = (Ok new_td, h1) →
      json_dumps new_td h1 = Ok td_json →
      subprocess_run (register_cmd td_json) w1 = (Ok res2, w2) →
      returncode res2 = 0%Z →
      read_arn (stdout res2) h1 = (Ok (VStr arn), h2) →
      run subprocess_run (update_service_cmd s arn)
        {| st_heap := h2; st_world := w2;
           st_out := st_out st ++
             [EvRun (describe_cmd s) res1;
              EvRun (register_cmd td_json) res2;
              EvPrint ("Registered new TD: " +:+ arn)] |}
      = (Raise e, {| st_heap := h2; st_world := w3;
                     st_out := st_out st ++
                       [EvRun (describe_cmd s) res1;
                        EvRun (register_cmd td_json) res2;
                        EvPrint ("Registered new TD: " +:+ arn)] |}) →
      deploy_path s st (Raise e)
        {| st_heap := h2; st_world := w3;
           st_out := st_out st ++
             [EvRun (describe_cmd s) res1;
              EvRun (register_cmd td_json) res2;
              EvPrint ("Registered new TD: " +:+ arn)] |}
  | path_update_failed res1 w1 new_td h1 td_json res2 w2 arn h2 res3 w3 :
      subprocess_run (describe_cmd s) (st_world st) = (Ok res1, w1) →
      returncode res1 = 0%Z →
      fetch_and_retag (stdout res1) (st_heap st) = (Ok new_td, h1) →
      json_dumps new_td h1 = Ok td_json →
      subprocess_run (register_cmd td_json) w1 = (Ok res2, w2) →
      returncode res2 = 0%Z →
      read_arn (stdout res2) h1 = (Ok (VStr arn), h2) →
      subprocess_run (update_service_cmd s arn) w2 = (Ok res3, w3) →
      returncode res3 ≠ 0%Z →
      deploy_path s st (Ok ())
        {| st_heap := h2; st_world := w3;
           st_out := st_out st ++
             [EvRun (describe_cmd s) res1;
              EvRun (register_cmd td_json) res2;
              EvPrint ("Registered new TD: " +:+ arn);
              EvRun (update_service_cmd s arn) res3;
              EvPrint ("Error updating service: " +:+ stderr res3)] |}
  | path_updated res1 w1 new_td h1 td_json res2 w2 arn h2 res3 w3 :
      subprocess_run (describe_cmd s) (st_world st) = (Ok res1, w1) →
      returncode res1 = 0%Z →
      fetch_and_retag (stdout res1) (st_heap st) = (Ok new_td, h1) →
      json_dumps new_td h1 = Ok td_json →
      subprocess_run (register_cmd td_json) w1 = (Ok res2, w2) →
      returncode res2 = 0%Z →
      read_arn (stdout res2) h1 = (Ok (VStr arn), h2) →
      subprocess_run (update_service_cmd s arn) w2 = (Ok res3, w3) →
      returncode res3 = 0%Z →
      deploy_path s st (Ok ())
        {| st_heap := h2; st_world := w3;
           st_out := st_out st ++
             [EvRun (describe_cmd s) res1;
              EvRun (register_cmd td_json) res2;
              EvPrint ("Registered new TD: " +:+ arn);
              EvRun (update_service_cmd s arn) res3;
              EvPrint ("Service " +:+ s +:+ " updated successfully!")] |}.

End DeployPaths.

(** ** A decoder for the sample document *)

(** An object moved [n] places up the store. *)
Definition shift_value (n : nat) (v : value) : value :=
  match v with
  | VRef l => VRef (n + l)
  | _ => v
  end.

Definition shift_obj (n : nat) (o : obj) : obj :=
  match o with
  | ODict d => ODict (shift_value n <$> d)
  | OList vs => OList (shift_value n <$> vs)
  end.

(** A decoder for which every answer is the sample document in its
    envelope, built as new objects at the end of the store. *)
Definition sample_doc_loads (text : string) : H value :=
  λ h, (Ok (VRef (length h + 4)), h ++ (shift_obj (length h) <$> sample_file_heap)).

(** [{"taskDefinition": {"taskDefinitionArn": "arn:web:4"}}] at
    reference 1: what the register call answers. *)
Definition registered_heap : heap :=
  [ ODict (<["taskDefinitionArn" := VStr "arn:web:4"]> ∅);
    ODict (<["taskDefinition" := VRef 0]> ∅) ].

(** A decoder that reads the text [registered] as the answer of the
    register call and any other text as the sample document. *)
Definition world_loads (text : string) : H value :=
  λ h, if bool_decide (text = "registered")
       then (Ok (VRef (length h + 1)),
             h ++ (shift_obj (length h) <$> registered_heap))
       else sample_doc_loads text h.

(** A world in which the three calls of one [deploy] return zero. *)
Definition full_world : state (list CompletedProcess) :=
  start [answered "described"; answered "registered"; answered ""].

(** ** [update_td.py] as a script *)

(** The text files [update_td] can open, by path.  Opening a path that
    is not there for reading raises [FileNotFoundError]; the other ways
    in which [open] fails are left out. *)
Record disk := {
  dk_heap : heap;
  dk_files : gmap string string
}.

Inductive script_exn :=
  | FileNotFoundError (path : string)
  | PyError (e : exn).

Section UpdateTdScript.

(** [json.load] of the text of a file, and [json.dump]: the text it has
    written to the file, all of the document when it returns and the
    part written so far when it raises, with the exception it raised. *)
Variable json_load : string → H value.
Variable json_dump : value → heap → string * option exn.

(** [update_td(filename, new_image_tag)]: the file is read and closed,
    then the transform runs, then the file is opened again for writing,
    which empties it, and the clean document is written. *)
Definition update_td_file (filename new_image_tag : string) (s : disk)
  : (unit + script_exn) * disk :=
  match dk_files s !! filename with
  | None => (inr (FileNotFoundError filename), s)
  | Some text =>
      match (data ← json_load text; update_td data new_image_tag) (dk_heap s) with
      | (Raise e, h') =>
          (inr (PyError e), {| dk_heap := h'; dk_files := dk_files s |})
      | (Ok clean_td, h') =>
          let '(written, raised) := json_dump clean_td h' in
          (match raised with
           | None => inl ()
           | Some e => inr (PyError e)
           end,
           {| dk_heap := h'; dk_files := <[filename := written]> (dk_files s) |})
      end
  end.

(** The [__main__] block: [update_td(sys.argv[1], sys.argv[2])]. *)
Definition update_td_main (argv : list string) (s : disk)
  : (unit + script_exn) * disk :=
  match argv !! 1%nat with
  | None => (inr (PyError IndexError), s)
  | Some filename =>
      match argv !! 2%nat with
      | None => (inr (PyError IndexError), s)
      | Some new_image_tag => update_td_file filename new_image_tag s
      end
  end.

End UpdateTdScript.

(** A [json.dump] that writes [{}] for every document. *)
Definition sample_dump (v : value) (h : heap) : string * option exn := ("{}", None).

(** A disk with the sample document in [td.json] and another file. *)
Definition sample_disk : disk :=
  {| dk_heap := [];
     dk_files := <["td.json" := "sample"]> (<["notes.txt" := "keep"]> ∅) |}.

(** * Properties *)

(** ** Strings *)

Lemma split_nonempty sep s : split sep s ≠ [].
Proof.
  destruct s as [|c s]; simpl; [done|].
  destruct (Ascii.eqb c sep); [done|].
  by destruct (split sep s).
Qed.

(** [s.split(':')[0]] is the text before the first colon. *)
Lemma split_first s : split ":" s !! 0%nat = Some (before_first_colon s).
Proof.
  induction s as [|c s IH]; simpl; [done|].
  destruct (Ascii.eqb c ":"); [done|].
  destruct (split ":" s) as [|x xs]; simpl in *; [done|].
  by injection IH as ->.
Qed.

Lemma before_first_colon_app p t :
  has_colon p = false → before_first_colon (p +:+ ":" +:+ t) = p.
Proof.
  induction p as [|c p IH]; simpl; [done|].
  destruct (Ascii.eqb c ":"); simpl; [done|].
  intros Hp. by rewrite IH.
Qed.

Lemma before_first_colon_id p :
  has_colon p = false → before_first_colon p = p.
Proof.
  induction p as [|c p IH]; simpl; [done|].
  destruct (Ascii.eqb c ":"); simpl; [done|].
  intros Hp. by rewrite IH.
Qed.

Lemma before_first_colon_no_colon s : has_colon (before_first_colon s) = false.
Proof.
  induction s as [|c s IH]; simpl; [done|].
  destruct (Ascii.eqb c ":") eqn:Hc; simpl; [done|].
  by rewrite Hc.
Qed.

(** A string is its prefix followed by nothing or by a colon and more. *)
Lemma before_first_colon_split s :
  s = before_first_colon s ∨
  ∃ rest, s = before_first_colon s +:+ ":" +:+ rest.
Proof.
  induction s as [|c s IH]; simpl; [by left|].
  destruct (Ascii.eqb c ":") eqn:Hc.
  - right. exists s. apply Ascii.eqb_eq in Hc. by subst.
  - destruct IH as [IH|[rest IH]].
    + left. congruence.
    + right. exists rest.
      change (String c s = String c (before_first_colon s +:+ ":" +:+ rest)).
      congruence.
Qed.

Lemma before_first_colon_retag tag s :
  before_first_colon (retag tag s) = before_first_colon s.
Proof. apply before_first_colon_app, before_first_colon_no_colon. Qed.

Lemma retag_retag tag s : retag tag (retag tag s) = retag tag s.
Proof. unfold retag at 1. by rewrite before_first_colon_retag. Qed.

Lemma retag_obj_idemp tag o : retag_obj tag (retag_obj tag o) = retag_obj tag o.
Proof.
  destruct o as [d|vs]; simpl; [|done].
  destruct (d !! "image") as [[| | | |s|]|] eqn:Hd; simpl; rewrite ?Hd; try done.
  rewrite lookup_insert_eq, retag_retag. by rewrite insert_insert_eq.
Qed.

(** ** One statement at a time *)

Lemma bind_unfold {S A B} (m : Py.M S A) (k : A → Py.M S B) s :
  (x ← m; k x) s =
  match m s with
  | (Ok a, s') => k a s'
  | (Raise e, s') => (Raise e, s')
  end.
Proof. done. Qed.

(** The body of the image loop, case by case. *)
Lemma update_image_unfold tag v h :
  update_image tag v h =
  match v with
  | VRef l =>
      match h !! l with
      | Some (ODict d) =>
          match d !! "image" with
          | Some (VStr s) =>
              (Ok (), <[l := ODict (<["image" := VStr (retag tag s)]> d)]> h)
          | Some _ => (Raise AttributeError, h)
          | None => (Raise (KeyError "image"), h)
          end
      | Some (OList _) => (Raise TypeError, h)
      | None => (Raise NoObject, h)
      end
  | _ => (Raise TypeError, h)
  end.
Proof.
  unfold update_image. rewrite bind_unfold. unfold subscript.
  destruct v as [| | | | |l]; try done.
  destruct (h !! l) as [[d|vs]|] eqn:Hl; try done.
  destruct (d !! "image") as [[| | | |s|]|] eqn:Hd; try done.
  rewrite bind_unfold. simpl. rewrite split_first. simpl.
  unfold store_item. by rewrite Hl.
Qed.

Lemma for_each_cons {S A} (x : A) xs (body : A → Py.M S unit) s :
  Py.for_each (x :: xs) body s =
  match body x s with
  | (Ok _, s') => Py.for_each xs body s'
  | (Raise e, s') => (Raise e, s')
  end.
Proof. done. Qed.

(** ** The image loop *)

Lemma image_of_Some h v s :
  image_of h v = Some s ↔
  ∃ l d, v = VRef l ∧ h !! l = Some (ODict d) ∧ d !! "image" = Some (VStr s).
Proof.
  unfold image_of, get_dict. split.
  - destruct v as [| | | | |l]; try done.
    destruct (h !! l) as [[d|vs]|] eqn:Hl; try done. simpl.
    destruct (d !! "image") as [[| | | |s'|]|] eqn:Hd; try done.
    intros [= ->]. eauto.
  - intros (l & d & -> & -> & Hd). simpl. by rewrite Hd.
Qed.

(** Whatever the loop does, and however it ends, it adds no object, and
    every object is as it was or has become its retagged self. *)
Lemma image_loop_frame tag cds h r h' :
  Py.for_each cds (update_image tag) h = (r, h') →
  length h' = length h ∧
  ∀ l, h' !! l = h !! l ∨ h' !! l = retag_obj tag <$> h !! l.
Proof.
  revert h. induction cds as [|v cds IH]; intros h.
  { intros [= _ <-]. eauto. }
  rewrite for_each_cons, update_image_unfold.
  destruct v as [| | | | |l0]; try (intros [= _ <-]; eauto).
  destruct (h !! l0) as [[d|vs]|] eqn:Hl0; try (intros [= _ <-]; eauto).
  destruct (d !! "image") as [[| | | |s|]|] eqn:Hd; try (intros [= _ <-]; eauto).
  assert (Hre : ODict (<["image" := VStr (retag tag s)]> d) = retag_obj tag (ODict d))
    by (simpl; by rewrite Hd).
  rewrite Hre. pose proof (retag_obj_idemp tag (ODict d)) as Hidem.
  set (o' := retag_obj tag (ODict d)) in *. clearbody o'.
  intros Hrun. apply IH in Hrun as [Hlen Hobj].
  rewrite length_insert in Hlen. split; [done|]. intros l.
  destruct (decide (l = l0)) as [->|Hne].
  - right. rewrite Hl0. specialize (Hobj l0).
    rewrite list_lookup_insert_eq in Hobj by (by eapply lookup_lt_Some).
    simpl in *. rewrite Hidem in Hobj. rewrite Hd, Hre. by destruct Hobj.
  - destruct (Hobj l) as [Hl|Hl]; rewrite Hl, list_lookup_insert_ne by done; eauto.
Qed.

Lemma image_of_insert h l0 d s tag v :
  h !! l0 = Some (ODict d) → d !! "image" = Some (VStr s) →
  is_Some (image_of h v) →
  is_Some (image_of (<[l0 := ODict (<["image" := VStr (retag tag s)]> d)]> h) v).
Proof.
  intros Hl0 Hd [s' (l & d' & -> & Hl & Hd')%image_of_Some].
  destruct (decide (l = l0)) as [->|Hne].
  - exists (retag tag s). apply image_of_Some. eexists _, _. split; [done|].
    rewrite list_lookup_insert_eq by (by eapply lookup_lt_Some).
    split; [done|]. by rewrite lookup_insert_eq.
  - exists s'. apply image_of_Some. eexists _, _. split; [done|].
    by rewrite list_lookup_insert_ne.
Qed.

(** Over dicts that each have a string as their image the loop runs to
    its end, and retags exactly the objects it went over. *)
Lemma image_loop_ok tag cds h :
  Forall (λ cd, is_Some (image_of h cd)) cds →
  ∃ h', Py.for_each cds (update_image tag) h = (Ok (), h') ∧
        length h' = length h ∧
        ∀ l, h' !! l =
             if decide (VRef l ∈ cds) then retag_obj tag <$> h !! l else h !! l.
Proof.
  revert h. induction cds as [|v cds IH]; intros h Hall.
  { exists h. split; [done|]. split; [done|]. intros l.
    by rewrite decide_False by apply not_elem_of_nil. }
  apply Forall_cons in Hall as [[s (l0 & d & -> & Hl0 & Hd)%image_of_Some] Hall].
  rewrite for_each_cons, update_image_unfold, Hl0, Hd.
  assert (Hre : ODict (<["image" := VStr (retag tag s)]> d) = retag_obj tag (ODict d))
    by (simpl; by rewrite Hd).
  destruct (IH (<[l0 := ODict (<["image" := VStr (retag tag s)]> d)]> h))
    as (h' & Hrun & Hlen & Hobj).
  { eapply Forall_impl; [exact Hall|]. intros v. by apply image_of_insert. }
  exists h'. split; [done|]. split; [by rewrite Hlen; apply length_insert|].
  rewrite Hre in Hobj. pose proof (retag_obj_idemp tag (ODict d)) as Hidem.
  set (o' := retag_obj tag (ODict d)) in *. clearbody o'.
  intros l. rewrite Hobj.
  destruct (decide (l = l0)) as [->|Hne].
  - rewrite (decide_True (P := VRef l0 ∈ VRef l0 :: cds)) by apply list_elem_of_here.
    rewrite list_lookup_insert_eq by (by eapply lookup_lt_Some).
    rewrite Hl0. simpl. rewrite Hidem, Hd, Hre. by case_decide.
  - rewrite list_lookup_insert_ne by done.
    destruct (decide (VRef l ∈ cds)) as [Hin|Hnin].
    + rewrite decide_True; [done|]. by apply list_elem_of_further.
    + rewrite decide_False; [done|].
      intros [[=]|]%elem_of_cons; done.
Qed.

(** A container definition without an image stops the loop. *)
Lemma image_loop_no_image tag cds h l d :
  VRef l ∈ cds → h !! l = Some (ODict d) → d !! "image" = None →
  ∃ e h', Py.for_each cds (update_image tag) h = (Raise e, h').
Proof.
  revert h. induction cds as [|v cds IH]; intros h Hin Hl Hd.
  { by apply not_elem_of_nil in Hin. }
  rewrite for_each_cons, update_image_unfold.
  destruct v as [| | | | |l0]; eauto.
  destruct (h !! l0) as [[d0|vs]|] eqn:Hl0; eauto.
  destruct (d0 !! "image") as [[| | | |s|]|] eqn:Hd0; eauto.
  assert (l ≠ l0) by congruence.
  apply IH.
  - apply elem_of_cons in Hin as [[=]|]; done.
  - by rewrite list_lookup_insert_ne.
  - done.
Qed.

(** When every container definition is a dict whose image, if it has
    one, is a string, the exception is the missing key. *)
Lemma image_loop_no_image_typed tag cds h l d :
  Forall (λ cd, ∃ l' d', cd = VRef l' ∧ h !! l' = Some (ODict d') ∧
                (d' !! "image" = None ∨ ∃ s, d' !! "image" = Some (VStr s))) cds →
  VRef l ∈ cds → h !! l = Some (ODict d) → d !! "image" = None →
  ∃ h', Py.for_each cds (update_image tag) h = (Raise (KeyError "image"), h').
Proof.
  revert h. induction cds as [|v cds IH]; intros h Hall Hin Hl Hd.
  { by apply not_elem_of_nil in Hin. }
  apply Forall_cons in Hall as [(l0 & d0 & -> & Hl0 & Hd0) Hall].
  rewrite for_each_cons, update_image_unfold, Hl0.
  destruct Hd0 as [->|[s Hd0]]; [eauto|]. rewrite Hd0.
  assert (l ≠ l0) by congruence.
  apply IH.
  - eapply Forall_impl; [exact Hall|]. intros v (l' & d' & -> & Hl' & Hd').
    destruct (decide (l' = l0)) as [->|Hne].
    + eexists _, _. split; [done|].
      rewrite list_lookup_insert_eq by (by eapply lookup_lt_Some).
      split; [done|]. right. eexists. by rewrite lookup_insert_eq.
    + eexists _, _. split; [done|]. by rewrite list_lookup_insert_ne.
  - apply elem_of_cons in Hin as [[=]|]; done.
  - by rewrite list_lookup_insert_ne.
  - done.
Qed.

(** ** Building the clean document *)

Lemma copy_fields_cons d f fields dc :
  copy_fields d (f :: fields) dc =
  copy_fields d fields
    match d !! f with
    | None | Some VNone => dc
    | Some val => <[f := val]> dc
    end.
Proof. done. Qed.

Lemma copy_api_fields_loop fields h l lc d dc :
  l ≠ lc → h !! l = Some (ODict d) → h !! lc = Some (ODict dc) →
  Py.for_each fields (λ field,
    val ← dict_get (VRef l) field;
    match val with
    | VNone => Py.ret ()
    | _ => store_item (VRef lc) field val
    end) h
  = (Ok (), <[lc := ODict (copy_fields d fields dc)]> h).
Proof.
  intros Hne. revert h dc. induction fields as [|f fields IH]; intros h dc Hl Hlc.
  { simpl. by rewrite list_insert_id. }
  rewrite for_each_cons, bind_unfold. unfold dict_get at 1. rewrite Hl.
  rewrite copy_fields_cons.
  assert (Hskip : Py.for_each fields (λ field,
            val ← dict_get (VRef l) field;
            match val with
            | VNone => Py.ret ()
            | _ => store_item (VRef lc) field val
            end) h = (Ok (), <[lc := ODict (copy_fields d fields dc)]> h))
    by (by apply IH).
  assert (Hstore : ∀ v, store_item (VRef lc) f v h
            = (Ok (), <[lc := ODict (<[f := v]> dc)]> h))
    by (intros v; unfold store_item; by rewrite Hlc).
  assert (Hcopy : ∀ v, Py.for_each fields (λ field,
            val ← dict_get (VRef l) field;
            match val with
            | VNone => Py.ret ()
            | _ => store_item (VRef lc) field val
            end) (<[lc := ODict (<[f := v]> dc)]> h)
          = (Ok (), <[lc := ODict (copy_fields d fields (<[f := v]> dc))]> h)).
  { intros v. rewrite (IH _ (<[f := v]> dc)).
    - by rewrite list_insert_insert_eq.
    - by rewrite list_lookup_insert_ne.
    - apply list_lookup_insert_eq. by eapply lookup_lt_Some. }
  clear IH.
  destruct (d !! f) as [[| | | | |]|]; simpl in Hcopy, Hskip |- *;
    rewrite ?Hlc; simpl; rewrite ?Hcopy; done.
Qed.

Lemma copy_fields_lookup d fields dc k :
  copy_fields d fields dc !! k =
  match d !! k with
  | Some v => if decide (k ∈ fields ∧ v ≠ VNone) then Some v else dc !! k
  | None => dc !! k
  end.
Proof.
  revert dc. induction fields as [|f fields IH]; intros dc.
  { unfold copy_fields. cbn [foldl]. destruct (d !! k); [|done].
    case_decide as Hk; [|done]. by destruct Hk as [?%not_elem_of_nil _]. }
  rewrite copy_fields_cons, IH.
  destruct (decide (k = f)) as [->|Hne].
  - destruct (d !! f) as [v|]; [|done].
    destruct (decide (v = VNone)) as [->|Hv].
    + rewrite !decide_False by (by intros [_ ?]). done.
    + rewrite (decide_True (P := f ∈ f :: fields ∧ _)) by (split; [left|done]).
      destruct v; try done; case_decide; by rewrite ?lookup_insert_eq.
  - assert (Hdc : ∀ v, <[f := v]> dc !! k = dc !! k)
      by (intros v; by apply lookup_insert_ne).
    assert (Hin : k ∈ f :: fields ↔ k ∈ fields)
      by (rewrite elem_of_cons; tauto).
    destruct (d !! k) as [v|].
    + destruct (decide (k ∈ fields ∧ v ≠ VNone)) as [Hyes|Hno].
      * rewrite decide_True by tauto. done.
      * rewrite decide_False by tauto.
        destruct (d !! f) as [[| | | | |]|]; by rewrite ?Hdc.
    + destruct (d !! f) as [[| | | | |]|]; by rewrite ?Hdc.
Qed.

Lemma insert_last (h : heap) o o' : <[length h := o']> (h ++ [o]) = h ++ [o'].
Proof. by rewrite insert_app_r_alt, Nat.sub_diag. Qed.

Lemma base_dict_lookup f c v k :
  base_dict f c v !! k =
  if decide (k = "volumes") then Some v
  else if decide (k = "containerDefinitions") then Some c
  else if decide (k = "family") then Some f
  else None.
Proof.
  unfold base_dict.
  destruct (decide (k = "volumes")) as [->|?]; [by rewrite lookup_insert_eq|].
  rewrite lookup_insert_ne by done.
  destruct (decide (k = "containerDefinitions")) as [->|?];
    [by rewrite lookup_insert_eq|].
  rewrite lookup_insert_ne by done.
  destruct (decide (k = "family")) as [->|?]; [by rewrite lookup_insert_eq|].
  by rewrite lookup_insert_ne.
Qed.

Lemma api_fields_elem k :
  k ∈ api_fields → k ∉ ["family"; "containerDefinitions"; "volumes"; "image"].
Proof.
  unfold api_fields. rewrite !elem_of_cons, !elem_of_nil.
  intros [->|[->|[->|[->|[->|[->|[->|[->|[]]]]]]]]]; intros Hb;
    repeat destruct Hb as [Hb|Hb]; done.
Qed.

(** The keys of the clean document before the image loop. *)
Lemma clean_dict_keys d f c v k :
  d !! "family" = Some f → d !! "containerDefinitions" = Some c →
  is_Some (copy_fields d api_fields (base_dict f c v) !! k) ↔ clean_key d k.
Proof.
  intros Hf Hc. rewrite copy_fields_lookup, base_dict_lookup. unfold clean_key.
  destruct (decide (k ∈ api_fields)) as [Hin|Hnin].
  - pose proof (api_fields_elem _ Hin) as Hbase.
    rewrite !not_elem_of_cons in Hbase. destruct Hbase as (? & ? & ? & ? & _).
    rewrite !decide_False by done.
    assert (Hno : ¬ k ∈ ["family"; "containerDefinitions"; "volumes"]).
    { rewrite !elem_of_cons, elem_of_nil. tauto. }
    destruct (d !! k) as [x|].
    + case_decide as Hx.
      * split; [|by eauto]. intros _. right. split; [done|]. exists x. tauto.
      * split; [by intros []|]. intros [|[_ (y & [= <-] & Hy)]]; tauto.
    + split; [by intros []|]. intros [|[_ (y & [=] & _)]]. tauto.
  - assert (Hsame : match d !! k with
                    | Some x => if decide (k ∈ api_fields ∧ x ≠ VNone) then Some x
                                else (if decide (k = "volumes") then Some v
                                      else if decide (k = "containerDefinitions") then Some c
                                      else if decide (k = "family") then Some f else None)
                    | None => (if decide (k = "volumes") then Some v
                               else if decide (k = "containerDefinitions") then Some c
                               else if decide (k = "family") then Some f else None)
                    end = (if decide (k = "volumes") then Some v
                           else if decide (k = "containerDefinitions") then Some c
                           else if decide (k = "family") then Some f else None)).
    { destruct (d !! k); [|done]. rewrite decide_False by tauto. done. }
    rewrite Hsame. rewrite !elem_of_cons, elem_of_nil.
    repeat case_decide; subst; split; eauto; try tauto; intros []; done.
Qed.

Lemma clean_dict_no_null d f c v k x :
  k ∈ api_fields →
  copy_fields d api_fields (base_dict f c v) !! k = Some x → x ≠ VNone.
Proof.
  intros Hin. pose proof (api_fields_elem _ Hin) as Hbase.
  rewrite !not_elem_of_cons in Hbase. destruct Hbase as (? & ? & ? & ? & _).
  rewrite copy_fields_lookup, base_dict_lookup, !decide_False by done.
  destruct (d !! k) as [y|]; [|done]. case_decide as Hy; [|done].
  intros [= <-]. tauto.
Qed.

Lemma clean_dict_base d f c v k :
  k ∉ api_fields →
  copy_fields d api_fields (base_dict f c v) !! k = base_dict f c v !! k.
Proof.
  intros Hnin. rewrite copy_fields_lookup.
  destruct (d !! k); [|done]. rewrite decide_False by tauto. done.
Qed.

(** The transform up to the image loop: the new dict is the last object
    of the store, after the empty list made for a document with no
    volumes, and no object of the document has changed. *)
Lemma sanitize_unfold tag l d f c h :
  h !! l = Some (ODict d) →
  d !! "family" = Some f → d !! "containerDefinitions" = Some c →
  let vol := default (VRef (length h)) (d !! "volumes") in
  let h0 := match d !! "volumes" with Some _ => h | None => h ++ [OList []] end in
  sanitize_and_retag tag (VRef l) h =
  match (cds ← iterate c; Py.for_each cds (update_image tag))
          (h0 ++ [ODict (copy_fields d api_fields (base_dict f c vol))]) with
  | (Ok _, h') => (Ok (VRef (length h0)), h')
  | (Raise e, h') => (Raise e, h')
  end.
Proof.
  intros Hl Hf Hc vol h0.
  assert (Hlt : l < length h) by (by eapply lookup_lt_Some).
  assert (Hl0 : h0 !! l = Some (ODict d)).
  { unfold h0. destruct (d !! "volumes"); [done|]. by rewrite lookup_app_l. }
  assert (Hlen0 : length h ≤ length h0).
  { unfold h0. destruct (d !! "volumes"); [done|]. rewrite length_app. lia. }
  assert (Hbuild : build_td (VRef l) h
                   = (Ok (VRef (length h0)), h0 ++ [ODict (base_dict f c vol)])).
  { unfold build_td. rewrite bind_unfold. unfold subscript at 1. rewrite Hl, Hf.
    rewrite bind_unfold. unfold subscript at 1. rewrite Hl, Hc.
    rewrite bind_unfold. unfold dict_get_or_new_list, vol, h0. rewrite Hl.
    destruct (d !! "volumes"); [done|]. unfold alloc. simpl.
    by rewrite length_app, Nat.add_1_r. }
  unfold sanitize_and_retag. rewrite bind_unfold, Hbuild.
  rewrite bind_unfold. unfold copy_api_fields.
  rewrite (copy_api_fields_loop _ _ l (length h0) d (base_dict f c vol)).
  - rewrite insert_last.
    rewrite bind_unfold. unfold update_images. rewrite bind_unfold.
    unfold subscript at 1. rewrite list_lookup_middle by done.
    rewrite clean_dict_base, base_dict_lookup.
    2:{ intros Hin%api_fields_elem. apply Hin.
        apply list_elem_of_further, list_elem_of_here. }
    rewrite decide_False, decide_True by done.
    rewrite !bind_unfold.
    destruct (iterate c _) as [[cds|e] h2]; [|done].
    by destruct (Py.for_each cds _ h2) as [[[]|e] h3].
  - lia.
  - by rewrite lookup_app_l by lia.
  - by rewrite list_lookup_middle.
Qed.

(** ** Valid documents *)

Lemma valid_td_inv h td :
  valid_td h td = true →
  ∃ l d f lcs cds,
    td = VRef l ∧ h !! l = Some (ODict d) ∧
    d !! "family" = Some f ∧ d !! "containerDefinitions" = Some (VRef lcs) ∧
    h !! lcs = Some (OList cds) ∧
    Forall (λ cd, is_Some (image_of h cd)) cds.
Proof.
  unfold valid_td, containers_of, get_dict, get_list.
  destruct td as [| | | | |l]; try done.
  destruct (h !! l) as [[d|vs]|] eqn:Hl; try done. simpl.
  destruct (d !! "containerDefinitions") as [[| | | | |lcs]|] eqn:Hc; try done.
  simpl. destruct (h !! lcs) as [[d'|cds]|] eqn:Hlcs; try done.
  intros [[f Hf]%bool_decide_eq_true Hall]%andb_true_iff.
  exists l, d, f, lcs, cds. repeat split; try done.
  apply Forall_forall. intros cd Hin.
  rewrite forallb_forall in Hall. eapply bool_decide_eq_true_1, Hall.
  by apply list_elem_of_In.
Qed.

Lemma image_of_lt h cd : is_Some (image_of h cd) → ∃ l, cd = VRef l ∧ l < length h.
Proof.
  intros [s (l & d & -> & Hl & _)%image_of_Some].
  exists l. split; [done|]. by eapply lookup_lt_Some.
Qed.

Lemma image_of_app h h2 cd :
  is_Some (image_of h cd) → image_of (h ++ h2) cd = image_of h cd.
Proof.
  intros Hcd. destruct (image_of_lt _ _ Hcd) as (l & -> & Hlt).
  unfold image_of, get_dict. by rewrite lookup_app_l.
Qed.

(** The store the image loop starts from: the store of the call, the
    empty list made for a document without volumes, the new dict. *)
Lemma prepared_lookup (h : heap) (d : dict) o l :
  l < length h →
  (match d !! "volumes" with Some _ => h | None => h ++ [OList []] end ++ [o]) !! l
  = h !! l.
Proof.
  intros Hlt. destruct (d !! "volumes").
  - by rewrite lookup_app_l.
  - rewrite <-app_assoc. by rewrite lookup_app_l.
Qed.

Lemma prepared_length (h : heap) (d : dict) :
  length h ≤ length (match d !! "volumes" with Some _ => h | None => h ++ [OList []] end).
Proof. destruct (d !! "volumes"); [done|]. rewrite length_app. lia. Qed.

(** The transform on a valid document: it returns the new dict, and the
    store differs from the one it started from in the new objects and in
    the container definitions, which are retagged where they are. *)
Lemma sanitize_valid tag h l d f lcs cds :
  h !! l = Some (ODict d) →
  d !! "family" = Some f → d !! "containerDefinitions" = Some (VRef lcs) →
  h !! lcs = Some (OList cds) →
  Forall (λ cd, is_Some (image_of h cd)) cds →
  let vol := default (VRef (length h)) (d !! "volumes") in
  let h0 := match d !! "volumes" with Some _ => h | None => h ++ [OList []] end in
  ∃ h', sanitize_and_retag tag (VRef l) h = (Ok (VRef (length h0)), h') ∧
        length h' = S (length h0) ∧
        h' !! length h0
          = Some (ODict (copy_fields d api_fields (base_dict f (VRef lcs) vol))) ∧
        (d !! "volumes" = None → h' !! length h = Some (OList [])) ∧
        ∀ l', l' < length h →
              h' !! l' = if decide (VRef l' ∈ cds)
                         then retag_obj tag <$> h !! l' else h !! l'.
Proof.
  intros Hl Hf Hc Hlcs Hall vol h0.
  pose proof (prepared_length h d) as Hlen0. fold h0 in Hlen0.
  assert (Hlcs_lt : lcs < length h) by (by eapply lookup_lt_Some).
  rewrite (sanitize_unfold tag l d f (VRef lcs) h Hl Hf Hc). fold vol h0.
  set (clean := copy_fields d api_fields (base_dict f (VRef lcs) vol)).
  set (h1 := h0 ++ [ODict clean]).
  assert (Hpre : ∀ l', l' < length h → h1 !! l' = h !! l')
    by (intros l' Hlt; by apply prepared_lookup).
  assert (Hall1 : Forall (λ cd, is_Some (image_of h1 cd)) cds).
  { eapply Forall_impl; [exact Hall|]. intros cd Hcd.
    destruct (image_of_lt _ _ Hcd) as (l' & -> & Hlt).
    unfold image_of, get_dict in *. by rewrite Hpre. }
  destruct (image_loop_ok tag cds h1 Hall1) as (h' & Hrun & Hlen & Hobj).
  exists h'. rewrite bind_unfold. unfold iterate. rewrite Hpre, Hlcs by done.
  rewrite Hrun. split; [done|].
  assert (Hnew : ∀ l', length h ≤ l' → VRef l' ∉ cds).
  { intros l' Hge Hin. rewrite Forall_forall in Hall.
    destruct (image_of_lt _ _ (Hall _ Hin)) as (l'' & [= <-] & Hlt). lia. }
  split; [|split; [|split]].
  - rewrite Hlen. unfold h1. rewrite length_app. simpl. lia.
  - rewrite Hobj, decide_False by (by apply Hnew).
    unfold h1. by rewrite list_lookup_middle.
  - intros Hvol. rewrite Hobj, decide_False by (by apply Hnew).
    unfold h1, h0. rewrite Hvol.
    rewrite lookup_app_l by (rewrite length_app; simpl; lia).
    by rewrite list_lookup_middle.
  - intros l' Hlt. by rewrite Hobj, Hpre.
Qed.

Lemma iterate_heap v h r h' : iterate v h = (r, h') → h' = h.
Proof.
  unfold iterate. destruct v as [| | | | |l]; try by intros [= _ <-].
  destruct (h !! l) as [[d|vs]|]; by intros [= _ <-].
Qed.

Lemma clean_dict_no_image d f c v :
  copy_fields d api_fields (base_dict f c v) !! "image" = None.
Proof.
  rewrite clean_dict_base, base_dict_lookup.
  - by rewrite !decide_False.
  - intros Hin%api_fields_elem. apply Hin.
    do 3 apply list_elem_of_further. apply list_elem_of_here.
Qed.

Lemma retag_obj_no_image tag (d : dict) :
  d !! "image" = None → retag_obj tag (ODict d) = ODict d.
Proof. unfold retag_obj. by intros ->. Qed.

(** The transform on any dict with both required fields, whenever it
    returns: what it returns is the new dict, as the loop over the
    optional fields left it, and every object of the store it started
    from is as it was or is its retagged self. *)
Lemma sanitize_returns tag h l d f c clean_td h' :
  h !! l = Some (ODict d) →
  d !! "family" = Some f → d !! "containerDefinitions" = Some c →
  sanitize_and_retag tag (VRef l) h = (Ok clean_td, h') →
  let vol := default (VRef (length h)) (d !! "volumes") in
  let h0 := match d !! "volumes" with Some _ => h | None => h ++ [OList []] end in
  clean_td = VRef (length h0) ∧
  h' !! length h0
    = Some (ODict (copy_fields d api_fields (base_dict f c vol))) ∧
  ∀ l', l' < length h →
        h' !! l' = h !! l' ∨ h' !! l' = retag_obj tag <$> h !! l'.
Proof.
  intros Hl Hf Hc Hrun vol h0.
  rewrite (sanitize_unfold tag l d f c h Hl Hf Hc) in Hrun. fold vol h0 in Hrun.
  set (clean := copy_fields d api_fields (base_dict f c vol)) in *.
  rewrite bind_unfold in Hrun.
  destruct (iterate c _) as [[cds|e] h1] eqn:Hit; [|done].
  apply iterate_heap in Hit as ->.
  destruct (Py.for_each cds _ _) as [[[]|e] h2] eqn:Hloop; [|done].
  injection Hrun as <- <-.
  apply image_loop_frame in Hloop as [_ Hobj].
  split; [done|]. split.
  - assert (Hclean : retag_obj tag (ODict clean) = ODict clean)
      by apply retag_obj_no_image, clean_dict_no_image.
    destruct (Hobj (length h0)) as [->| ->];
      rewrite list_lookup_middle by reflexivity; [reflexivity|].
    change (Some (retag_obj tag (ODict clean)) = Some (ODict clean)).
    by rewrite Hclean.
  - intros l' Hlt. specialize (Hobj l').
    by rewrite (prepared_lookup h d _ l' Hlt) in Hobj.
Qed.

Lemma containers_of_dict h l (d : dict) c cds :
  h !! l = Some (ODict d) → d !! "containerDefinitions" = Some c →
  get_list h c = Some cds → containers_of h (VRef l) = Some cds.
Proof.
  intros Hl Hc Hcds. unfold containers_of, get_dict. rewrite Hl.
  simpl. rewrite Hc. done.
Qed.

Lemma clean_dict_containers d f c v :
  copy_fields d api_fields (base_dict f c v) !! "containerDefinitions" = Some c.
Proof.
  rewrite clean_dict_base, base_dict_lookup.
  - by rewrite decide_False, decide_True.
  - intros Hin%api_fields_elem. apply Hin.
    apply list_elem_of_further, list_elem_of_here.
Qed.

(** ** The clean document *)

(** C1.  For a document with [family] and [containerDefinitions], the
    clean document the transform returns has exactly the keys [family],
    [containerDefinitions] and [volumes] and those optional fields of the
    allow-list that the document has with a value other than [None]; an
    optional field that is absent or [None] in the document is not a key
    of the clean document, so none of them is there with the value
    [None]; and on a valid document the transform does return. *)
Theorem clean_document_keys tag h td d :
  get_dict h td = Some d →
  is_Some (d !! "family") → is_Some (d !! "containerDefinitions") →
  (valid_td h td = true → is_ok (sanitize_and_retag tag td h).1 = true) ∧
  ∀ clean_td h',
    sanitize_and_retag tag td h = (Ok clean_td, h') →
    ∃ dc, get_dict h' clean_td = Some dc ∧
          (∀ k, is_Some (dc !! k) ↔ clean_key d k) ∧
          (∀ k, k ∈ api_fields → dc !! k ≠ Some VNone).
Proof.
  intros Htd [f Hf] [c Hc]. split.
  - intros (l & d' & f' & lcs & cds & -> & Hl & Hf' & Hc' & Hlcs & Hall)%valid_td_inv.
    destruct (sanitize_valid tag h l d' f' lcs cds Hl Hf' Hc' Hlcs Hall)
      as (h' & -> & _). done.
  - intros clean_td h' Hrun.
    unfold get_dict in Htd. destruct td as [| | | | |l]; try done.
    destruct (h !! l) as [[d'|vs]|] eqn:Hl; try done. injection Htd as ->.
    destruct (sanitize_returns tag h l d f c clean_td h' Hl Hf Hc Hrun)
      as (-> & Hclean & _).
    eexists. split; [unfold get_dict; by rewrite Hclean|]. split.
    + intros k. by apply clean_dict_keys.
    + intros k Hin Hk. by eapply clean_dict_no_null.
Qed.

Lemma clean_document_keys_witness :
  is_ok (sanitize_and_retag "abc123" sample_td sample_heap).1 = true.
Proof.
  apply (clean_document_keys "abc123" sample_heap sample_td sample_dict).
  - reflexivity.
  - exists (VStr "web"). reflexivity.
  - exists (VRef 2). reflexivity.
  - vm_compute. reflexivity.
Defined.

(** The images after the transform on a valid document. *)
Lemma retag_images_valid tag h td :
  valid_td h td = true →
  ∃ clean_td h' cds,
    sanitize_and_retag tag td h = (Ok clean_td, h') ∧
    containers_of h td = Some cds ∧
    containers_of h' clean_td = Some cds ∧
    ∀ cd, cd ∈ cds →
      ∃ image, image_of h cd = Some image ∧
               image_of h' cd = Some (retag tag image).
Proof.
  intros (l & d & f & lcs & cds & -> & Hl & Hf & Hc & Hlcs & Hall)%valid_td_inv.
  destruct (sanitize_valid tag h l d f lcs cds Hl Hf Hc Hlcs Hall)
    as (h' & Hrun & Hlen & Hclean & _ & Hobj).
  assert (Hlcs_lt : lcs < length h) by (by eapply lookup_lt_Some).
  eexists _, h', cds. split; [exact Hrun|]. split; [|split].
  - eapply containers_of_dict; [exact Hl|exact Hc|].
    unfold get_list. by rewrite Hlcs.
  - eapply containers_of_dict; [exact Hclean|apply clean_dict_containers|].
    unfold get_list. rewrite Hobj, Hlcs by done. by case_decide.
  - intros cd Hin. rewrite Forall_forall in Hall.
    destruct (Hall cd Hin) as [image Himage]. exists image. split; [done|].
    apply image_of_Some in Himage as (lcd & dcd & -> & Hlcd & Hdcd).
    apply image_of_Some. eexists _, _. split; [done|].
    rewrite Hobj by (by eapply lookup_lt_Some).
    rewrite decide_True, Hlcd by done. simpl. rewrite Hdcd.
    split; [done|]. by rewrite lookup_insert_eq.
Qed.

(** C2.  On a valid document the transform leaves the sequence of
    container definitions in place and gives each of them, whatever the
    others are, the image [<prefix>:<new_tag>], the prefix being the text
    before the first colon of the image it had, all of it when it had no
    colon: [repo:oldtag] and [repo] both become [repo:<new_tag>], and the
    prefix of the new image is the prefix of the old one. *)
Theorem images_retagged tag h td :
  valid_td h td = true →
  ∃ clean_td h' cds,
    sanitize_and_retag tag td h = (Ok clean_td, h') ∧
    containers_of h td = Some cds ∧
    containers_of h' clean_td = Some cds ∧
    ∀ cd, cd ∈ cds →
      ∃ image,
        image_of h cd = Some image ∧
        image_of h' cd = Some (before_first_colon image +:+ ":" +:+ tag) ∧
        ∀ prefix oldtag,
          has_colon prefix = false →
          image = prefix ∨ image = prefix +:+ ":" +:+ oldtag →
          image_of h' cd = Some (prefix +:+ ":" +:+ tag) ∧
          before_first_colon (prefix +:+ ":" +:+ tag) = prefix.
Proof.
  intros Hvalid.
  destruct (retag_images_valid tag h td Hvalid)
    as (clean_td & h' & cds & Hrun & Hcds & Hcds' & Himages).
  exists clean_td, h', cds. do 3 (split; [done|]).
  intros cd Hin. destruct (Himages cd Hin) as (image & Hold & Hnew).
  exists image. split; [done|]. split; [exact Hnew|].
  intros prefix oldtag Hprefix Himg. rewrite Hnew. unfold retag.
  rewrite (before_first_colon_app prefix tag Hprefix).
  destruct Himg as [-> | ->].
  - by rewrite before_first_colon_id.
  - by rewrite before_first_colon_app.
Qed.

Lemma images_retagged_witness :
  ∃ clean_td h' cds,
    sanitize_and_retag "abc123" sample_td sample_heap = (Ok clean_td, h') ∧
    containers_of sample_heap sample_td = Some cds ∧
    containers_of h' clean_td = Some cds ∧
    ∀ cd, cd ∈ cds →
      ∃ image,
        image_of sample_heap cd = Some image ∧
        image_of h' cd = Some (before_first_colon image +:+ ":" +:+ "abc123") ∧
        ∀ prefix oldtag,
          has_colon prefix = false →
          image = prefix ∨ image = prefix +:+ ":" +:+ oldtag →
          image_of h' cd = Some (prefix +:+ ":" +:+ "abc123") ∧
          before_first_colon (prefix +:+ ":" +:+ "abc123") = prefix.
Proof.
  apply (images_retagged "abc123" sample_heap sample_td).
  vm_compute. reflexivity.
Defined.

(** ** Required fields *)

(** [update_td] is the transform on what the envelope holds. *)
Lemma update_td_envelope tag h data d :
  get_dict h data = Some d →
  update_td data tag h =
  match d !! "taskDefinition" with
  | Some td => sanitize_and_retag tag td h
  | None => (Raise (KeyError "taskDefinition"), h)
  end.
Proof.
  unfold get_dict. destruct data as [| | | | |l]; try done.
  destruct (h !! l) as [[d'|vs]|] eqn:Hl; try done. intros [= ->].
  unfold update_td. rewrite bind_unfold. unfold subscript at 1. rewrite Hl.
  by destruct (d !! "taskDefinition").
Qed.

(** C4.  On a document that lacks [family] or [containerDefinitions] the
    transform raises the missing-key exception, [KeyError], with the key
    that is missing: [family] when that is missing, and
    [containerDefinitions] otherwise; nothing has been built by then. *)
Theorem missing_required_field tag h td d k :
  get_dict h td = Some d → k ∈ required_fields → d !! k = None →
  ∃ missing,
    missing ∈ required_fields ∧ d !! missing = None ∧
    missing = match d !! "family" with
              | Some _ => "containerDefinitions"
              | None => "family"
              end ∧
    sanitize_and_retag tag td h = (Raise (KeyError missing), h).
Proof.
  intros Htd Hk Hnone.
  unfold get_dict in Htd. destruct td as [| | | | |l]; try done.
  destruct (h !! l) as [[d'|vs]|] eqn:Hl; try done. injection Htd as ->.
  unfold sanitize_and_retag, build_td.
  rewrite !bind_unfold. unfold subscript at 1. rewrite Hl.
  destruct (d !! "family") as [f|] eqn:Hf.
  - exists "containerDefinitions".
    assert (Hc : d !! "containerDefinitions" = None).
    { unfold required_fields in Hk.
      apply elem_of_cons in Hk as [->|Hk]; [congruence|].
      apply elem_of_cons in Hk as [->|Hk]; [done|].
      by apply elem_of_nil in Hk. }
    split; [apply list_elem_of_further, list_elem_of_here|].
    split; [done|]. split; [done|].
    rewrite !bind_unfold. unfold subscript at 1. by rewrite Hl, Hc.
  - exists "family". split; [apply list_elem_of_here|]. done.
Qed.

Lemma missing_required_field_witness :
  sanitize_and_retag "abc123" (VRef 1) no_family_heap
  = (Raise (KeyError "family"), no_family_heap).
Proof.
  destruct (missing_required_field "abc123" no_family_heap (VRef 1)
              (<["containerDefinitions" := VRef 0]> ∅) "family")
    as (missing & _ & _ & Hmissing & Hrun).
  - reflexivity.
  - apply list_elem_of_here.
  - vm_compute. reflexivity.
  - vm_compute in Hmissing. rewrite Hrun, Hmissing. reflexivity.
Defined.

(** ** What the transform does to the document it is given *)

(** The claim C3 fails on the sample document: the transform writes the
    new image into the container definition of the document it was
    given. *)
Lemma input_is_mutated :
  image_of sample_heap (VRef 0) = Some "repo:old" ∧
  image_of (sanitize_and_retag "abc123" sample_td sample_heap).2 (VRef 0)
  = Some "repo:abc123" ∧
  ¬ input_unchanged sample_heap
      (sanitize_and_retag "abc123" sample_td sample_heap).2.
Proof.
  split; [vm_compute; reflexivity|]. split; [vm_compute; reflexivity|].
  intros Hun.
  assert (Himg : image_of (sanitize_and_retag "abc123" sample_td sample_heap).2
                   (VRef 0) = Some "repo:old").
  { unfold image_of, get_dict. by rewrite (Hun 0 _ eq_refl). }
  vm_compute in Himg. discriminate Himg.
Qed.

(** C3, as the code has it.  On a valid document the transform returns a
    dict that is a new object, whose [containerDefinitions] is the very
    sequence of the document it was given, not a copy.  It changes that
    document in place: every container definition of the sequence is
    retagged where it is, and no other object of the store is changed. *)
Theorem input_is_aliased tag h td :
  valid_td h td = true →
  ∃ clean_td h' cds,
    sanitize_and_retag tag td h = (Ok clean_td, h') ∧
    containers_of h td = Some cds ∧
    get_dict h clean_td = None ∧
    get_dict h' clean_td ≫= (.!! "containerDefinitions")
    = get_dict h td ≫= (.!! "containerDefinitions") ∧
    ∀ l o, h !! l = Some o →
           h' !! l = Some (if decide (VRef l ∈ cds) then retag_obj tag o else o).
Proof.
  intros (l & d & f & lcs & cds & -> & Hl & Hf & Hc & Hlcs & Hall)%valid_td_inv.
  destruct (sanitize_valid tag h l d f lcs cds Hl Hf Hc Hlcs Hall)
    as (h' & Hrun & Hlen & Hclean & _ & Hobj).
  eexists _, h', cds. split; [exact Hrun|]. split; [|split; [|split]].
  - eapply containers_of_dict; [exact Hl|exact Hc|].
    unfold get_list. by rewrite Hlcs.
  - unfold get_dict. rewrite lookup_ge_None_2; [done|]. apply prepared_length.
  - unfold get_dict. rewrite Hclean, Hl.
    change (copy_fields d api_fields
              (base_dict f (VRef lcs) (default (VRef (length h)) (d !! "volumes")))
            !! "containerDefinitions" = d !! "containerDefinitions").
    by rewrite clean_dict_containers.
  - intros l' o Hl'. rewrite Hobj by (by eapply lookup_lt_Some).
    rewrite Hl'. by case_decide.
Qed.

Lemma input_is_aliased_witness :
  ∃ clean_td h' cds,
    sanitize_and_retag "abc123" sample_td sample_heap = (Ok clean_td, h') ∧
    containers_of sample_heap sample_td = Some cds ∧
    get_dict sample_heap clean_td = None ∧
    get_dict h' clean_td ≫= (.!! "containerDefinitions")
    = get_dict sample_heap sample_td ≫= (.!! "containerDefinitions") ∧
    ∀ l o, sample_heap !! l = Some o →
           h' !! l = Some (if decide (VRef l ∈ cds)
                           then retag_obj "abc123" o else o).
Proof.
  apply (input_is_aliased "abc123" sample_heap sample_td).
  vm_compute. reflexivity.
Defined.

(** C9.  On a valid document the transform changes the image of the
    container definitions and nothing else: the sequence is the same
    sequence, with the same elements in the same order; every other key
    of a container definition keeps its value; [family] and [volumes]
    have the values of the document, [volumes] being a new empty list
    when the document has none; and no object other than the container
    definitions is changed. *)
Theorem only_image_changes tag h td :
  valid_td h td = true →
  ∃ clean_td h' d dc cds,
    sanitize_and_retag tag td h = (Ok clean_td, h') ∧
    get_dict h td = Some d ∧ get_dict h' clean_td = Some dc ∧
    containers_of h td = Some cds ∧ containers_of h' clean_td = Some cds ∧
    dc !! "family" = d !! "family" ∧
    match d !! "volumes" with
    | Some v => dc !! "volumes" = Some v
    | None => ∃ lv, dc !! "volumes" = Some (VRef lv) ∧
                    h !! lv = None ∧ h' !! lv = Some (OList [])
    end ∧
    (∀ cd, cd ∈ cds →
       ∃ dcd dcd', get_dict h cd = Some dcd ∧ get_dict h' cd = Some dcd' ∧
                   ∀ k, k ≠ "image" → dcd' !! k = dcd !! k) ∧
    (∀ l o, h !! l = Some o → VRef l ∉ cds → h' !! l = Some o).
Proof.
  intros (l & d & f & lcs & cds & -> & Hl & Hf & Hc & Hlcs & Hall)%valid_td_inv.
  destruct (sanitize_valid tag h l d f lcs cds Hl Hf Hc Hlcs Hall)
    as (h' & Hrun & Hlen & Hclean & Hvol & Hobj).
  assert (Hlcs_lt : lcs < length h) by (by eapply lookup_lt_Some).
  eexists _, h', d, _, cds. split; [exact Hrun|].
  split; [unfold get_dict; by rewrite Hl|].
  split; [unfold get_dict; by rewrite Hclean|].
  split; [|split; [|split; [|split; [|split]]]].
  - eapply containers_of_dict; [exact Hl|exact Hc|].
    unfold get_list. by rewrite Hlcs.
  - eapply containers_of_dict; [exact Hclean|apply clean_dict_containers|].
    unfold get_list. rewrite Hobj, Hlcs by done. by case_decide.
  - rewrite clean_dict_base, base_dict_lookup, Hf.
    + by rewrite decide_False, decide_False, decide_True.
    + intros Hin%api_fields_elem. apply Hin. apply list_elem_of_here.
  - assert (Hv : ∀ v, copy_fields d api_fields (base_dict f (VRef lcs) v)
                      !! "volumes" = Some v).
    { intros v. rewrite clean_dict_base, base_dict_lookup.
      - by rewrite decide_True.
      - intros Hin%api_fields_elem. apply Hin.
        do 2 apply list_elem_of_further. apply list_elem_of_here. }
    destruct (d !! "volumes") as [v|] eqn:Hdv; [apply Hv|].
    exists (length h). split; [apply Hv|].
    split; [by apply lookup_ge_None_2|by apply Hvol].
  - intros cd Hin. rewrite Forall_forall in Hall.
    destruct (Hall cd Hin) as [image (lcd & dcd & -> & Hlcd & Hdcd)%image_of_Some].
    exists dcd, (<["image" := VStr (retag tag image)]> dcd).
    split; [unfold get_dict; by rewrite Hlcd|]. split.
    + unfold get_dict. rewrite Hobj by (by eapply lookup_lt_Some).
      rewrite decide_True, Hlcd by done. simpl. by rewrite Hdcd.
    + intros k Hk. by rewrite lookup_insert_ne.
  - intros l' o Hl' Hnin. rewrite Hobj by (by eapply lookup_lt_Some).
    by rewrite decide_False.
Qed.

Lemma only_image_changes_witness :
  ∃ clean_td h',
    sanitize_and_retag "abc123" sample_td sample_heap = (Ok clean_td, h') ∧
    containers_of h' clean_td = Some [VRef 0; VRef 1].
Proof.
  destruct (only_image_changes "abc123" sample_heap sample_td)
    as (clean_td & h' & d & dc & cds & Hrun & _ & _ & Hcds & Hcds' & _).
  - vm_compute. reflexivity.
  - exists clean_td, h'. split; [exact Hrun|].
    rewrite Hcds', <-Hcds. vm_compute. reflexivity.
Defined.

(** ** Applying the transform twice *)

Lemma clean_dict_again d f c v :
  copy_fields (copy_fields d api_fields (base_dict f c v)) api_fields
    (base_dict f c v)
  = copy_fields d api_fields (base_dict f c v).
Proof.
  apply map_eq. intros k. rewrite (copy_fields_lookup (copy_fields _ _ _)).
  rewrite copy_fields_lookup.
  destruct (d !! k) as [x|].
  - destruct (decide (k ∈ api_fields ∧ x ≠ VNone)) as [Hyes|Hno].
    + by rewrite decide_True.
    + destruct (base_dict f c v !! k) as [y|]; [|done]. by case_decide.
  - destruct (base_dict f c v !! k) as [y|]; [|done]. by case_decide.
Qed.

(** C8.  On a valid document, the transform applied with the same tag to
    the clean document it returned returns a dict with the same keys and
    the same values, and changes no object of the store: the clean
    document of the second application is that of the first. *)
Theorem retag_twice tag h td :
  valid_td h td = true →
  ∃ clean1 h1 clean2 h2 dc,
    sanitize_and_retag tag td h = (Ok clean1, h1) ∧
    sanitize_and_retag tag clean1 h1 = (Ok clean2, h2) ∧
    get_dict h1 clean1 = Some dc ∧ get_dict h2 clean2 = Some dc ∧
    containers_of h2 clean2 = containers_of h1 clean1 ∧
    input_unchanged h1 h2.
Proof.
  intros (l & d & f & lcs & cds & -> & Hl & Hf & Hc & Hlcs & Hall)%valid_td_inv.
  destruct (sanitize_valid tag h l d f lcs cds Hl Hf Hc Hlcs Hall)
    as (h1 & Hrun1 & Hlen1 & Hclean1 & _ & Hobj1).
  set (vol := default (VRef (length h)) (d !! "volumes")) in *.
  set (h0 := match d !! "volumes" with Some _ => h | None => h ++ [OList []] end) in *.
  set (dc := copy_fields d api_fields (base_dict f (VRef lcs) vol)) in *.
  assert (Hlcs_lt : lcs < length h) by (by eapply lookup_lt_Some).
  assert (Hvol : dc !! "volumes" = Some vol).
  { unfold dc. rewrite clean_dict_base, base_dict_lookup.
    - by rewrite decide_True.
    - intros Hin%api_fields_elem. apply Hin.
      do 2 apply list_elem_of_further. apply list_elem_of_here. }
  assert (Hfam : dc !! "family" = Some f).
  { unfold dc. rewrite clean_dict_base, base_dict_lookup.
    - by rewrite decide_False, decide_False, decide_True.
    - intros Hin%api_fields_elem. apply Hin. apply list_elem_of_here. }
  assert (Hlcs1 : h1 !! lcs = Some (OList cds)).
  { rewrite Hobj1, Hlcs by done. by case_decide. }
  assert (Hretagged : ∀ cd, cd ∈ cds →
            ∃ lcd o, cd = VRef lcd ∧ lcd < length h ∧ h !! lcd = Some o ∧
                     h1 !! lcd = Some (retag_obj tag o) ∧
                     is_Some (image_of h1 cd)).
  { intros cd Hin. rewrite Forall_forall in Hall.
    destruct (Hall cd Hin) as [image (lcd & dcd & -> & Hlcd & Hdcd)%image_of_Some].
    assert (Hlt : lcd < length h) by (by eapply lookup_lt_Some).
    exists lcd, (ODict dcd). repeat split; try done.
    - rewrite Hobj1, Hlcd by done. by rewrite decide_True.
    - exists (retag tag image). apply image_of_Some. eexists _, _.
      split; [done|]. rewrite Hobj1, Hlcd by done. rewrite decide_True by done.
      simpl. rewrite Hdcd. split; [done|]. by rewrite lookup_insert_eq. }
  assert (Hall1 : Forall (λ cd, is_Some (image_of h1 cd)) cds).
  { apply Forall_forall. intros cd Hin.
    by destruct (Hretagged cd Hin) as (? & ? & _ & _ & _ & _ & ?). }
  destruct (sanitize_valid tag h1 (length h0) dc f lcs cds
              Hclean1 Hfam (clean_dict_containers _ _ _ _) Hlcs1 Hall1)
    as (h2 & Hrun2 & Hlen2 & Hclean2 & _ & Hobj2).
  rewrite Hvol in Hrun2, Hclean2. simpl in Hclean2.
  fold dc in Hclean2. unfold dc at 1 in Hclean2.
  rewrite clean_dict_again in Hclean2. fold dc in Hclean2.
  assert (Hsame : input_unchanged h1 h2).
  { intros l' o Hl'. rewrite Hobj2 by (by eapply lookup_lt_Some).
    rewrite Hl'. case_decide as Hin; [|done].
    destruct (Hretagged _ Hin) as (lcd & o' & [= <-] & _ & _ & Hl1 & _).
    rewrite Hl1 in Hl'. injection Hl' as <-. simpl.
    by rewrite retag_obj_idemp. }
  eexists _, h1, _, h2, dc. split; [exact Hrun1|]. split; [exact Hrun2|].
  split; [unfold get_dict; by rewrite Hclean1|].
  split; [unfold get_dict; by rewrite Hclean2|].
  split; [|exact Hsame].
  rewrite (containers_of_dict h1 (length h0) dc (VRef lcs) cds);
    [|exact Hclean1|apply clean_dict_containers|unfold get_list; by rewrite Hlcs1].
  eapply containers_of_dict; [exact Hclean2|apply clean_dict_containers|].
  unfold get_list. by rewrite (Hsame _ _ Hlcs1).
Qed.

Lemma retag_twice_witness :
  ∃ clean1 h1 clean2 h2 dc,
    sanitize_and_retag "abc123" sample_td sample_heap = (Ok clean1, h1) ∧
    sanitize_and_retag "abc123" clean1 h1 = (Ok clean2, h2) ∧
    get_dict h1 clean1 = Some dc ∧ get_dict h2 clean2 = Some dc ∧
    containers_of h2 clean2 = containers_of h1 clean1 ∧
    input_unchanged h1 h2.
Proof.
  apply (retag_twice "abc123" sample_heap sample_td).
  vm_compute. reflexivity.
Defined.

(** ** A container definition without an image *)

(** C10.  When a container definition of the document is a dict
    without the key [image], the transform raises: it returns no clean
    document.  When every container definition is a dict whose image, if
    it has one, is a string, what it raises is the missing-key exception,
    [KeyError] with the key [image]. *)
Theorem container_without_image tag h td d cds cd dcd :
  get_dict h td = Some d → is_Some (d !! "family") →
  containers_of h td = Some cds →
  cd ∈ cds → get_dict h cd = Some dcd → dcd !! "image" = None →
  (∃ e h', sanitize_and_retag tag td h = (Raise e, h')) ∧
  (Forall (λ v, ∃ dv, get_dict h v = Some dv ∧
                      (dv !! "image" = None ∨ ∃ s, dv !! "image" = Some (VStr s)))
          cds →
   ∃ h', sanitize_and_retag tag td h = (Raise (KeyError "image"), h')).
Proof.
  intros Htd [f Hf] Hcds Hin Hcd Hnone.
  unfold get_dict in Htd. destruct td as [| | | | |l]; try done.
  destruct (h !! l) as [[d'|vs]|] eqn:Hl; try done. injection Htd as ->.
  unfold containers_of, get_dict in Hcds. rewrite Hl in Hcds. simpl in Hcds.
  destruct (d !! "containerDefinitions") as [c|] eqn:Hc; [|done]. simpl in Hcds.
  unfold get_list in Hcds. destruct c as [| | | | |lcs]; try done.
  destruct (h !! lcs) as [[?|cds']|] eqn:Hlcs; try done. injection Hcds as ->.
  unfold get_dict in Hcd. destruct cd as [| | | | |lcd]; try done.
  destruct (h !! lcd) as [[dcd'|?]|] eqn:Hlcd; try done. injection Hcd as ->.
  assert (Hlcs_lt : lcs < length h) by (by eapply lookup_lt_Some).
  assert (Hlcd_lt : lcd < length h) by (by eapply lookup_lt_Some).
  rewrite (sanitize_unfold tag l d f (VRef lcs) h Hl Hf Hc).
  rewrite bind_unfold. unfold iterate.
  rewrite !(prepared_lookup h d _ lcs Hlcs_lt), Hlcs.
  pose proof (prepared_lookup h d
    (ODict (copy_fields d api_fields
       (base_dict f (VRef lcs) (default (VRef (length h)) (d !! "volumes")))))) as Hpre.
  set (h1 := _ ++ [ODict _]) in *.
  split.
  - destruct (image_loop_no_image tag cds h1 lcd dcd Hin) as (e & h' & ->);
      [by rewrite Hpre|done|]. eauto.
  - intros Htyped.
    destruct (image_loop_no_image_typed tag cds h1 lcd dcd) as (h' & ->);
      [|done|by rewrite Hpre|done|by eauto].
    eapply Forall_impl; [exact Htyped|]. intros v (dv & Hv & Himg).
    unfold get_dict in Hv. destruct v as [| | | | |lv]; try done.
    destruct (h !! lv) as [[dv'|?]|] eqn:Hlv; try done. injection Hv as ->.
    exists lv, dv. split; [done|]. split; [|done].
    rewrite Hpre by (by eapply lookup_lt_Some). done.
Qed.

Lemma container_without_image_witness :
  ∃ h', sanitize_and_retag "abc123" (VRef 2) no_image_heap
        = (Raise (KeyError "image"), h').
Proof.
  destruct (container_without_image "abc123" no_image_heap (VRef 2)
              (<["family" := VStr "web"]> (<["containerDefinitions" := VRef 1]> ∅))
              [VRef 0] (VRef 0) (<["name" := VStr "app"]> ∅))
    as [_ Htyped].
  - reflexivity.
  - exists (VStr "web"). vm_compute. reflexivity.
  - vm_compute. reflexivity.
  - apply list_elem_of_here.
  - reflexivity.
  - vm_compute. reflexivity.
  - apply Htyped. constructor; [|constructor].
    exists (<["name" := VStr "app"]> ∅). split; [reflexivity|].
    left. vm_compute. reflexivity.
Defined.

(** ** The tag *)

Lemma same_shape_obj_refl o : same_shape_obj o o.
Proof. destruct o as [d|vs]; simpl; [by left|done]. Qed.

Lemma same_shape_refl h : same_shape h h.
Proof. apply Forall2_same_length_lookup_2; [done|].
  intros i x y Hx Hy. rewrite Hx in Hy. injection Hy as <-.
  apply same_shape_obj_refl.
Qed.

(** One step of the image loop in two stores of the same shape, with two
    tags: the same outcome, and stores of the same shape again. *)
Lemma update_image_same_shape t1 t2 v h1 h2 :
  same_shape h1 h2 →
  (update_image t1 v h1).1 = (update_image t2 v h2).1 ∧
  same_shape (update_image t1 v h1).2 (update_image t2 v h2).2.
Proof.
  intros Hsh. rewrite !update_image_unfold.
  destruct v as [| | | | |l]; try done.
  destruct (h1 !! l) as [o1|] eqn:Hl1.
  - destruct (Forall2_lookup_l _ _ _ _ _ Hsh Hl1) as (o2 & Hl2 & Hobj).
    rewrite Hl2. destruct o1 as [d1|vs1], o2 as [d2|vs2]; try done.
    simpl in Hobj. destruct (Hobj "image") as [Heq|(s1 & s2 & Heq1 & Heq2)].
    + rewrite <-Heq.
      destruct (d1 !! "image") as [[| | | |s|]|] eqn:Hd1; try done.
      split; [done|]. simpl. apply Forall2_insert; [done|].
      intros k. destruct (decide (k = "image")) as [->|Hne].
      * right. rewrite !lookup_insert_eq. eauto.
      * rewrite !lookup_insert_ne by done. apply Hobj.
    + rewrite Heq1, Heq2. split; [done|]. simpl.
      apply Forall2_insert; [done|].
      intros k. destruct (decide (k = "image")) as [->|Hne].
      * right. rewrite !lookup_insert_eq. eauto.
      * rewrite !lookup_insert_ne by done. apply Hobj.
  - assert (Hl2 : h2 !! l = None).
    { apply lookup_ge_None. rewrite <-(Forall2_length _ _ _ Hsh).
      by apply lookup_ge_None. }
    by rewrite Hl2.
Qed.

Lemma image_loop_same_shape t1 t2 cds h1 h2 :
  same_shape h1 h2 →
  (Py.for_each cds (update_image t1) h1).1
  = (Py.for_each cds (update_image t2) h2).1.
Proof.
  revert h1 h2. induction cds as [|v cds IH]; intros h1 h2 Hsh; [done|].
  rewrite !for_each_cons.
  destruct (update_image_same_shape t1 t2 v h1 h2 Hsh) as [Hres Hsh'].
  destruct (update_image t1 v h1) as [[[]|e1] h1'],
           (update_image t2 v h2) as [[[]|e2] h2']; simpl in *; try done.
  by apply IH.
Qed.

(** The outcome of the transform does not depend on the tag. *)
Lemma sanitize_any_tag t1 t2 td h :
  (sanitize_and_retag t1 td h).1 = (sanitize_and_retag t2 td h).1.
Proof.
  destruct td as [| | | | |l]; try done.
  destruct (h !! l) as [[d|vs]|] eqn:Hl.
  - destruct (d !! "family") as [f|] eqn:Hf.
    + destruct (d !! "containerDefinitions") as [c|] eqn:Hc.
      * rewrite !(sanitize_unfold _ l d f c h Hl Hf Hc), !bind_unfold.
        destruct (iterate c _) as [[cds|e] h1]; [|done].
        pose proof (image_loop_same_shape t1 t2 cds h1 h1 (same_shape_refl h1)) as Hres.
        destruct (Py.for_each cds (update_image t1) h1) as [[[]|e1] h1'],
                 (Py.for_each cds (update_image t2) h1) as [[[]|e2] h2'];
          simpl in Hres |- *; congruence.
      * unfold sanitize_and_retag, build_td. rewrite !bind_unfold.
        unfold subscript at 1 3. rewrite Hl, Hf. rewrite !bind_unfold.
        unfold subscript at 1 2. by rewrite Hl, Hc.
    + unfold sanitize_and_retag, build_td. rewrite !bind_unfold.
      unfold subscript at 1 3. by rewrite Hl, Hf.
  - unfold sanitize_and_retag, build_td. rewrite !bind_unfold.
    unfold subscript at 1 3. by rewrite Hl.
  - unfold sanitize_and_retag, build_td. rewrite !bind_unfold.
    unfold subscript at 1 3. by rewrite Hl.
Qed.

(** The claim C5 fails on the sample document: with the empty string as
    the tag the transform returns the clean document, and the images end
    in a colon. *)
Lemma empty_tag_returns :
  (sanitize_and_retag "" sample_td sample_heap).1 = Ok (VRef 5) ∧
  image_of (sanitize_and_retag "" sample_td sample_heap).2 (VRef 0)
  = Some "repo:" ∧
  image_of (sanitize_and_retag "" sample_td sample_heap).2 (VRef 1)
  = Some "nginx:".
Proof. repeat split; vm_compute; reflexivity. Qed.

(** C5, as the code has it.  The transform does not look at the tag: for
    every document, what it returns or raises with a tag is what it
    returns or raises with the empty string; and on a valid document the
    empty string is taken like any other tag, every image becoming its
    prefix and a colon. *)
Theorem new_tag_not_validated tag h td :
  (sanitize_and_retag tag td h).1 = (sanitize_and_retag "" td h).1 ∧
  (valid_td h td = true →
   ∃ clean_td h' cds,
     sanitize_and_retag "" td h = (Ok clean_td, h') ∧
     containers_of h' clean_td = Some cds ∧
     ∀ cd, cd ∈ cds →
       ∃ image, image_of h cd = Some image ∧
                image_of h' cd = Some (before_first_colon image +:+ ":")).
Proof.
  split; [apply sanitize_any_tag|]. intros Hvalid.
  destruct (retag_images_valid "" h td Hvalid)
    as (clean_td & h' & cds & Hrun & _ & Hcds & Himages).
  exists clean_td, h', cds. split; [done|]. split; [done|].
  intros cd Hin. destruct (Himages cd Hin) as (image & Hold & Hnew).
  exists image. split; [done|]. exact Hnew.
Qed.

Lemma new_tag_not_validated_witness :
  ∃ clean_td h' cds,
    sanitize_and_retag "" sample_td sample_heap = (Ok clean_td, h') ∧
    containers_of h' clean_td = Some cds ∧
    ∀ cd, cd ∈ cds →
      ∃ image, image_of sample_heap cd = Some image ∧
               image_of h' cd = Some (before_first_colon image +:+ ":").
Proof.
  apply (new_tag_not_validated "abc123" sample_heap sample_td).
  vm_compute. reflexivity.
Defined.

(** * More of the two scripts *)

(** ** The transform, whatever the document *)

Lemma for_each_app {S A} (xs ys : list A) (body : A → Py.M S unit) s :
  Py.for_each (xs ++ ys) body s =
  match Py.for_each xs body s with
  | (Ok _, s') => Py.for_each ys body s'
  | (Raise e, s') => (Raise e, s')
  end.
Proof.
  revert s. induction xs as [|x xs IH]; intros s; [done|].
  cbn [app]. rewrite !for_each_cons.
  destruct (body x s) as [[[]|e] s1]; [apply IH|done].
Qed.

Lemma container_error_None h cd :
  container_error h cd = None ↔ is_Some (image_of h cd).
Proof.
  unfold container_error, image_of, get_dict.
  destruct cd as [| | | | |l]; simpl; try (split; [done|by intros []]).
  destruct (h !! l) as [[d|vs]|]; simpl; try (split; [done|by intros []]).
  destruct (d !! "image") as [[| | | |s|]|]; simpl;
    try (split; [done|by intros []]).
Qed.

Lemma update_image_error tag h cd e :
  container_error h cd = Some e → update_image tag cd h = (Raise e, h).
Proof.
  rewrite update_image_unfold. unfold container_error.
  destruct cd as [| | | | |l]; try by intros [= <-].
  destruct (h !! l) as [[d|vs]|]; try by intros [= <-].
  destruct (d !! "image") as [[| | | |s|]|]; try by intros [= <-].
Qed.

(** The image loop up to the first container definition that is not a
    dict with a string as its image. *)
Lemma image_loop_first_error tag pre cd post h e :
  Forall (λ v, container_error h v = None) pre →
  container_error h cd = Some e →
  ∃ h', Py.for_each (pre ++ cd :: post) (update_image tag) h = (Raise e, h') ∧
        length h' = length h ∧
        ∀ l, h' !! l =
             if decide (VRef l ∈ pre) then retag_obj tag <$> h !! l else h !! l.
Proof.
  intros Hpre Hcd.
  assert (Hpre' : Forall (λ v, is_Some (image_of h v)) pre).
  { eapply Forall_impl; [exact Hpre|]. intros v. apply container_error_None. }
  destruct (image_loop_ok tag pre h Hpre') as (h' & Hrun & Hlen & Hobj).
  exists h'. rewrite for_each_app, Hrun, for_each_cons.
  rewrite (update_image_error tag h' cd e); [done|].
  rewrite <-Hcd. unfold container_error.
  destruct cd as [| | | | |l]; try done. rewrite Hobj.
  case_decide as Hin; [|done].
  rewrite Forall_forall in Hpre. rewrite (Hpre _ Hin) in Hcd. done.
Qed.

(** X1.  The first container definition that is not a dict with a string
    as its image ends the transform, with [TypeError] when it is not a
    dict, [KeyError] when it has no image and [AttributeError] when its
    image is not a string; by then the container definitions before it
    have been retagged where they are, and no other object of the store
    the transform started from has changed. *)
Theorem first_bad_container tag h td d pre cd post e :
  get_dict h td = Some d → is_Some (d !! "family") →
  containers_of h td = Some (pre ++ cd :: post) →
  Forall (λ v, container_error h v = None) pre →
  container_error h cd = Some e → e ≠ NoObject →
  ∃ h', sanitize_and_retag tag td h = (Raise e, h') ∧
        ∀ l, l < length h →
             h' !! l = if decide (VRef l ∈ pre)
                       then retag_obj tag <$> h !! l else h !! l.
Proof.
  intros Htd [f Hf] Hcds Hpre Hcd He.
  unfold get_dict in Htd. destruct td as [| | | | |l]; try done.
  destruct (h !! l) as [[d'|vs]|] eqn:Hl; try done. injection Htd as ->.
  unfold containers_of, get_dict in Hcds. rewrite Hl in Hcds. simpl in Hcds.
  destruct (d !! "containerDefinitions") as [c|] eqn:Hc; [|done]. simpl in Hcds.
  unfold get_list in Hcds. destruct c as [| | | | |lcs]; try done.
  destruct (h !! lcs) as [[?|cds']|] eqn:Hlcs; try done. injection Hcds as ->.
  assert (Hlcs_lt : lcs < length h) by (by eapply lookup_lt_Some).
  rewrite (sanitize_unfold tag l d f (VRef lcs) h Hl Hf Hc).
  rewrite bind_unfold. unfold iterate.
  rewrite !(prepared_lookup h d _ lcs Hlcs_lt), Hlcs.
  pose proof (prepared_lookup h d
    (ODict (copy_fields d api_fields
       (base_dict f (VRef lcs) (default (VRef (length h)) (d !! "volumes")))))) as Hsame.
  set (h1 := _ ++ [ODict _]) in *.
  assert (Hpre1 : Forall (λ v, container_error h1 v = None) pre).
  { eapply Forall_impl; [exact Hpre|]. intros v Hv.
    apply container_error_None in Hv as Himg.
    destruct (image_of_lt _ _ Himg) as (k & -> & Hlt).
    unfold container_error in *. by rewrite Hsame. }
  assert (Hcd1 : container_error h1 cd = Some e).
  { destruct cd as [| | | | |k]; try exact Hcd.
    destruct (decide (k < length h)) as [Hlt|Hge].
    - unfold container_error in *. by rewrite Hsame.
    - exfalso. unfold container_error in Hcd.
      rewrite lookup_ge_None_2 in Hcd by lia. congruence. }
  destruct (image_loop_first_error tag pre cd post h1 e Hpre1 Hcd1)
    as (h' & -> & _ & Hobj).
  exists h'. split; [done|]. intros l' Hlt'. by rewrite Hobj, Hsame.
Qed.

Lemma first_bad_container_witness :
  ∃ h', sanitize_and_retag "abc123" (VRef 4) null_image_heap
        = (Raise AttributeError, h') ∧
        image_of h' (VRef 0) = Some "repo:abc123" ∧
        image_of h' (VRef 2) = Some "nginx".
Proof.
  destruct (first_bad_container "abc123" null_image_heap (VRef 4) null_image_dict
              [VRef 0] (VRef 1) [VRef 2] AttributeError)
    as (h' & Hrun & Hobj).
  - reflexivity.
  - exists (VStr "web"). reflexivity.
  - vm_compute. reflexivity.
  - constructor; [vm_compute; reflexivity|constructor].
  - vm_compute. reflexivity.
  - discriminate.
  - exists h'. split; [exact Hrun|]. unfold image_of, get_dict.
    rewrite !Hobj by (simpl; lia). split; vm_compute; reflexivity.
Defined.


(** The store after the transform, whatever the document and however
    the transform ends. *)
Lemma sanitize_frame tag td h :
  length h ≤ length (sanitize_and_retag tag td h).2 ≤ length h + 2 ∧
  ∀ l, l < length h →
       (sanitize_and_retag tag td h).2 !! l = h !! l ∨
       (sanitize_and_retag tag td h).2 !! l = retag_obj tag <$> h !! l.
Proof.
  destruct (sanitize_and_retag tag td h) as [r h'] eqn:Hrun. cbn [snd].
  assert (Hsame_store : h' = h →
            length h ≤ length h' ≤ length h + 2 ∧
            ∀ l, l < length h →
                 h' !! l = h !! l ∨ h' !! l = retag_obj tag <$> h !! l).
  { intros ->. split; [lia|by left]. }
  destruct td as [| | | | |l]; try (injection Hrun as <- <-; by apply Hsame_store).
  destruct (h !! l) as [[d|vs]|] eqn:Hl.
  2,3: unfold sanitize_and_retag, build_td in Hrun; rewrite !bind_unfold in Hrun;
       unfold subscript at 1 in Hrun; rewrite Hl in Hrun;
       injection Hrun as <- <-; by apply Hsame_store.
  destruct (d !! "family") as [f|] eqn:Hf.
  2:{ unfold sanitize_and_retag, build_td in Hrun. rewrite !bind_unfold in Hrun.
      unfold subscript at 1 in Hrun. rewrite Hl, Hf in Hrun.
      injection Hrun as <- <-. by apply Hsame_store. }
  destruct (d !! "containerDefinitions") as [c|] eqn:Hc.
  2:{ unfold sanitize_and_retag, build_td in Hrun. rewrite !bind_unfold in Hrun.
      unfold subscript at 1 in Hrun. rewrite Hl, Hf in Hrun.
      rewrite !bind_unfold in Hrun.
      unfold subscript at 1 in Hrun. rewrite Hl, Hc in Hrun.
      injection Hrun as <- <-. by apply Hsame_store. }
  clear Hsame_store.
  rewrite (sanitize_unfold tag l d f c h Hl Hf Hc), bind_unfold in Hrun.
  pose proof (prepared_lookup h d
    (ODict (copy_fields d api_fields
       (base_dict f c (default (VRef (length h)) (d !! "volumes")))))) as Hsame.
  assert (Hlen1 : length h ≤ length (match d !! "volumes" with
                                     | Some _ => h | None => h ++ [OList []] end)
                  ≤ length h + 1).
  { destruct (d !! "volumes"); [lia|]. rewrite length_app. simpl. lia. }
  set (h0 := match d !! "volumes" with Some _ => h | None => h ++ [OList []] end) in *.
  set (h1 := h0 ++ [ODict _]) in *.
  assert (Hlen : length h1 = S (length h0))
    by (unfold h1; rewrite length_app; simpl; lia).
  destruct (iterate c h1) as [[cds|e] h2] eqn:Hit.
  - apply iterate_heap in Hit as ->.
    destruct (Py.for_each cds (update_image tag) h1) as [r3 h3] eqn:Hloop.
    apply image_loop_frame in Hloop as [Hlen3 Hobj].
    assert (h' = h3) as -> by (by destruct r3 as [[]|e]; injection Hrun as _ <-).
    split; [lia|]. intros l' Hlt. specialize (Hobj l').
    by rewrite Hsame in Hobj.
  - apply iterate_heap in Hit as ->. injection Hrun as _ <-.
    split; [lia|]. intros l' Hlt. left. by apply Hsame.
Qed.

(** X2.  Whatever the document and however the transform ends, it adds at
    most two objects and takes none away; it changes no list; and in a
    dict it changes nothing but the value of [image], which it changes
    only from a string to that string retagged. *)
Theorem transform_touches_images_only tag td h :
  length h ≤ length (sanitize_and_retag tag td h).2 ≤ length h + 2 ∧
  (∀ l vs, h !! l = Some (OList vs) →
           (sanitize_and_retag tag td h).2 !! l = Some (OList vs)) ∧
  (∀ l d, h !! l = Some (ODict d) →
     ∃ d', (sanitize_and_retag tag td h).2 !! l = Some (ODict d') ∧
           (∀ k, k ≠ "image" → d' !! k = d !! k) ∧
           (d' !! "image" = d !! "image" ∨
            ∃ s, d !! "image" = Some (VStr s) ∧
                 d' !! "image" = Some (VStr (retag tag s)))).
Proof.
  destruct (sanitize_frame tag td h) as [Hlen Hobj].
  split; [done|]. split.
  - intros l vs Hl.
    destruct (Hobj l) as [->| ->]; [by eapply lookup_lt_Some|done|by rewrite Hl].
  - intros l d Hl.
    destruct (Hobj l) as [Heq|Heq]; [by eapply lookup_lt_Some| |].
    + exists d. rewrite Heq. split; [done|]. split; [done|by left].
    + rewrite Heq, Hl. simpl.
      destruct (d !! "image") as [[| | | |s|]|] eqn:Hd;
        try (exists d; split; [done|]; split; [done|by left]).
      eexists. split; [done|]. split.
      * intros k Hk. by rewrite lookup_insert_ne.
      * right. exists s. split; [done|]. by rewrite lookup_insert_eq.
Qed.

(** ** What the clean document holds *)

(** A transform that returns had a dict with both required fields. *)
Lemma sanitize_Ok_inv tag td h clean_td h' :
  sanitize_and_retag tag td h = (Ok clean_td, h') →
  ∃ l d f c, td = VRef l ∧ h !! l = Some (ODict d) ∧
             d !! "family" = Some f ∧ d !! "containerDefinitions" = Some c.
Proof.
  unfold sanitize_and_retag, build_td. rewrite !bind_unfold. unfold subscript at 1.
  destruct td as [| | | | |l]; try done.
  destruct (h !! l) as [[d|vs]|] eqn:Hl; try done.
  destruct (d !! "family") as [f|] eqn:Hf; [|done].
  rewrite !bind_unfold. unfold subscript at 1. rewrite Hl.
  destruct (d !! "containerDefinitions") as [c|] eqn:Hc; [|done].
  intros _. by exists l, d, f, c.
Qed.

(** The new objects of a transform that returns. *)
Lemma sanitize_returns_new tag h l d f c clean_td h' :
  h !! l = Some (ODict d) →
  d !! "family" = Some f → d !! "containerDefinitions" = Some c →
  sanitize_and_retag tag (VRef l) h = (Ok clean_td, h') →
  match d !! "volumes" with
  | Some v =>
      clean_td = VRef (length h) ∧ length h' = S (length h) ∧
      h' !! length h
        = Some (ODict (copy_fields d api_fields (base_dict f c v)))
  | None =>
      clean_td = VRef (S (length h)) ∧ length h' = S (S (length h)) ∧
      h' !! length h = Some (OList []) ∧
      h' !! S (length h)
        = Some (ODict (copy_fields d api_fields
                         (base_dict f c (VRef (length h)))))
  end.
Proof.
  intros Hl Hf Hc Hrun.
  destruct (sanitize_returns tag h l d f c clean_td h' Hl Hf Hc Hrun)
    as (-> & Hclean & _).
  rewrite (sanitize_unfold tag l d f c h Hl Hf Hc), bind_unfold in Hrun.
  destruct (iterate c _) as [[cds|e] h1] eqn:Hit; [|done].
  apply iterate_heap in Hit as ->.
  destruct (Py.for_each cds _ _) as [[[]|e] h2] eqn:Hloop; [|done].
  assert (h2 = h') as -> by congruence. clear Hrun.
  apply image_loop_frame in Hloop as [Hlen Hobj].
  destruct (d !! "volumes") as [v|] eqn:Hv.
  - split; [done|]. split; [|done].
    rewrite Hlen, length_app. simpl. lia.
  - rewrite length_app, Nat.add_1_r in Hclean. split.
    { by rewrite length_app, Nat.add_1_r. }
    split; [rewrite Hlen, !length_app; simpl; lia|]. split; [|done].
    destruct (Hobj (length h)) as [->| ->];
      rewrite lookup_app_l, list_lookup_middle
        by (rewrite ?length_app; simpl; lia || done); done.
Qed.

(** X3.  The values of the clean document are the values of the document:
    [family], [containerDefinitions] and every optional field of the
    allow-list that is there and not [None] are put into the new dict as
    they are, a reference as the same reference. *)
Theorem values_carried_over tag h td d clean_td h' :
  get_dict h td = Some d →
  sanitize_and_retag tag td h = (Ok clean_td, h') →
  ∃ dc, get_dict h' clean_td = Some dc ∧
        dc !! "family" = d !! "family" ∧
        dc !! "containerDefinitions" = d !! "containerDefinitions" ∧
        ∀ k v, k ∈ api_fields → d !! k = Some v → v ≠ VNone →
               dc !! k = Some v.
Proof.
  intros Htd Hrun.
  destruct (sanitize_Ok_inv _ _ _ _ _ Hrun) as (l & d' & f & c & -> & Hl & Hf & Hc).
  unfold get_dict in Htd. rewrite Hl in Htd. injection Htd as <-.
  destruct (sanitize_returns tag h l d' f c clean_td h' Hl Hf Hc Hrun)
    as (-> & Hclean & _).
  eexists. split; [unfold get_dict; by rewrite Hclean|].
  split; [|split].
  - rewrite clean_dict_base, base_dict_lookup, Hf.
    + by rewrite decide_False, decide_False, decide_True.
    + intros Hin%api_fields_elem. apply Hin. apply list_elem_of_here.
  - by rewrite clean_dict_containers, Hc.
  - intros k v Hk Hv Hnone. rewrite copy_fields_lookup, Hv.
    by rewrite decide_True.
Qed.

Lemma values_carried_over_witness :
  ∃ dc, get_dict (sanitize_and_retag "abc123" sample_td sample_heap).2 (VRef 5)
        = Some dc ∧
        dc !! "cpu" = Some (VStr "256").
Proof.
  destruct (values_carried_over "abc123" sample_heap sample_td sample_dict
              (VRef 5) (sanitize_and_retag "abc123" sample_td sample_heap).2)
    as (dc & Hdc & _ & _ & Hfields).
  - reflexivity.
  - vm_compute. reflexivity.
  - exists dc. split; [exact Hdc|].
    apply Hfields; [|vm_compute; reflexivity|discriminate].
    do 5 apply list_elem_of_further. apply list_elem_of_here.
Defined.

(** X4.  [volumes] is kept whenever the document has the key, a [None]
    there included, and the new dict is then the only new object; when
    the document has no such key, [volumes] is a new empty list, made by
    this call, and the new dict comes after it. *)
Theorem volumes_kept_or_new tag h td d clean_td h' :
  get_dict h td = Some d →
  sanitize_and_retag tag td h = (Ok clean_td, h') →
  ∃ dc, get_dict h' clean_td = Some dc ∧
        match d !! "volumes" with
        | Some v => dc !! "volumes" = Some v ∧ length h' = S (length h)
        | None => dc !! "volumes" = Some (VRef (length h)) ∧
                  h' !! length h = Some (OList []) ∧
                  length h' = S (S (length h))
        end.
Proof.
  intros Htd Hrun.
  destruct (sanitize_Ok_inv _ _ _ _ _ Hrun) as (l & d' & f & c & -> & Hl & Hf & Hc).
  unfold get_dict in Htd. rewrite Hl in Htd. injection Htd as <-.
  pose proof (sanitize_returns_new tag h l d' f c clean_td h' Hl Hf Hc Hrun) as Hnew.
  assert (Hvol : ∀ v, copy_fields d' api_fields (base_dict f c v)
                      !! "volumes" = Some v).
  { intros v. rewrite clean_dict_base, base_dict_lookup.
    - by rewrite decide_True.
    - intros Hin%api_fields_elem. apply Hin.
      do 2 apply list_elem_of_further. apply list_elem_of_here. }
  destruct (d' !! "volumes") as [v|].
  - destruct Hnew as (-> & Hlen & Hclean).
    eexists. split; [unfold get_dict; by rewrite Hclean|]. by rewrite Hvol.
  - destruct Hnew as (-> & Hlen & Hlist & Hclean).
    eexists. split; [unfold get_dict; by rewrite Hclean|]. by rewrite Hvol.
Qed.

Lemma volumes_kept_or_new_witness :
  ∃ dc, get_dict (sanitize_and_retag "abc123" sample_td sample_heap).2 (VRef 5)
        = Some dc ∧
        dc !! "volumes" = Some (VRef 4) ∧
        (sanitize_and_retag "abc123" sample_td sample_heap).2 !! 4%nat
        = Some (OList []).
Proof.
  destruct (volumes_kept_or_new "abc123" sample_heap sample_td sample_dict
              (VRef 5) (sanitize_and_retag "abc123" sample_td sample_heap).2)
    as (dc & Hdc & Hvol).
  - reflexivity.
  - vm_compute. reflexivity.
  - exists dc. split; [exact Hdc|].
    change (sample_dict !! "volumes") with (@None value) in Hvol.
    destruct Hvol as (Hv & Hlist & _). split; [exact Hv|exact Hlist].
Defined.

(** ** A [containerDefinitions] that is not a list *)

Lemma chars_nil s : chars s = [] ↔ s = "".
Proof. destruct s; simpl; split; done. Qed.

(** The image loop over what a value other than a list yields. *)
Lemma image_loop_not_list tag c h cds :
  get_list h c = None → iterate c h = (Ok cds, h) →
  (cds = [] ↔ empty_iterable h c = true) ∧
  (cds ≠ [] → ∃ h', Py.for_each cds (update_image tag) h = (Raise TypeError, h')).
Proof.
  unfold get_list, iterate, empty_iterable.
  destruct c as [| | | |s|l]; try done.
  - intros _ [= <-]. split.
    + rewrite chars_nil. by rewrite bool_decide_eq_true.
    + destruct s as [|a s]; [done|]. intros _. simpl chars.
      rewrite for_each_cons, update_image_unfold. eauto.
  - destruct (h !! l) as [[d|vs]|]; try done. intros _ [= <-]. split.
    + rewrite bool_decide_eq_true. split.
      * intros Hnil%fmap_nil_inv%fmap_nil_inv. by apply map_to_list_empty_iff.
      * intros ->. by rewrite map_to_list_empty.
    + destruct (map_to_list d) as [|[k v] kvs]; [done|]. intros _.
      rewrite !fmap_cons, for_each_cons, update_image_unfold. eauto.
Qed.

(** X5.  When [containerDefinitions] is not a list the transform raises
    [TypeError], unless the value is the empty string or an empty dict:
    then the loop has nothing to go over, and the transform returns with
    no object changed. *)
Theorem containers_not_a_list tag h td d c :
  get_dict h td = Some d → is_Some (d !! "family") →
  d !! "containerDefinitions" = Some c →
  get_list h c = None → (∀ l, c = VRef l → is_Some (h !! l)) →
  if empty_iterable h c
  then ∃ clean_td h', sanitize_and_retag tag td h = (Ok clean_td, h') ∧
                      input_unchanged h h'
  else ∃ h', sanitize_and_retag tag td h = (Raise TypeError, h').
Proof.
  intros Htd [f Hf] Hc Hnl Hthere.
  unfold get_dict in Htd. destruct td as [| | | | |l]; try done.
  destruct (h !! l) as [[d'|vs]|] eqn:Hl; try done. injection Htd as ->.
  rewrite (sanitize_unfold tag l d f c h Hl Hf Hc), bind_unfold.
  pose proof (prepared_lookup h d
    (ODict (copy_fields d api_fields
       (base_dict f c (default (VRef (length h)) (d !! "volumes")))))) as Hsame.
  set (h1 := _ ++ [ODict _]) in *.
  assert (Hc1 : get_list h1 c = None ∧ empty_iterable h1 c = empty_iterable h c).
  { unfold get_list, empty_iterable in *.
    destruct c as [| | | |s|k]; try done.
    destruct (Hthere k eq_refl) as [o Hk].
    rewrite Hsame by (by eapply lookup_lt_Some). by rewrite Hk in *. }
  destruct Hc1 as [Hnl1 Hempty]. rewrite <-Hempty.
  destruct (iterate c h1) as [[cds|e] h2] eqn:Hit.
  - pose proof (iterate_heap _ _ _ _ Hit) as ->.
    destruct (image_loop_not_list tag c h1 cds Hnl1 Hit) as [Hnil Hcons].
    destruct (empty_iterable h1 c).
    + rewrite (proj2 Hnil eq_refl). eexists _, h1. split; [done|].
      intros k o Hk. rewrite Hsame by (by eapply lookup_lt_Some). done.
    + destruct Hcons as [h' ->]; [|by eauto].
      intros ->. discriminate (proj1 Hnil eq_refl).
  - pose proof (iterate_heap _ _ _ _ Hit) as ->.
    assert (e = TypeError ∧ empty_iterable h1 c = false) as [-> ->]; [|by eauto].
    unfold iterate, empty_iterable in *.
    destruct c as [| | | |s|k]; try (by injection Hit as <-); try done.
    destruct (Hthere k eq_refl) as [o Hk].
    rewrite Hsame in Hit by (by eapply lookup_lt_Some).
    rewrite Hk in Hit. by destruct o.
Qed.

Lemma containers_not_a_list_witness :
  ∃ clean_td h',
    sanitize_and_retag "abc123" (VRef 0) text_containers_heap = (Ok clean_td, h') ∧
    input_unchanged text_containers_heap h'.
Proof.
  apply (containers_not_a_list "abc123" text_containers_heap (VRef 0)
           text_containers_dict (VStr "")).
  - reflexivity.
  - exists (VStr "web"). reflexivity.
  - vm_compute. reflexivity.
  - reflexivity.
  - intros l Hl. discriminate Hl.
Defined.

(** ** Reading the tag back *)

Lemma split_prefix p t :
  has_colon p = false → split ":" (p +:+ ":" +:+ t) = p :: split ":" t.
Proof.
  induction p as [|c p IH]; [done|]. simpl has_colon.
  destruct (Ascii.eqb c ":") eqn:Hc; [done|]. intros Hp.
  change (String c p +:+ ":" +:+ t) with (String c (p +:+ ":" +:+ t)).
  simpl. by rewrite Hc, (IH Hp).
Qed.

Lemma split_no_colon t : has_colon t = false → split ":" t = [t].
Proof.
  induction t as [|c t IH]; [done|]. simpl.
  destruct (Ascii.eqb c ":"); [done|]. intros Ht. by rewrite (IH Ht).
Qed.

(** X6.  On a valid document the new image of a container definition
    splits at its colons into the prefix of the old image followed by
    the pieces of the tag; when the tag has no colon these are the prefix
    and the tag, so that the tag which was written is read back from the
    image. *)
Theorem tag_read_back tag h td :
  valid_td h td = true →
  ∃ clean_td h' cds,
    sanitize_and_retag tag td h = (Ok clean_td, h') ∧
    containers_of h' clean_td = Some cds ∧
    ∀ cd, cd ∈ cds →
      ∃ image image',
        image_of h cd = Some image ∧ image_of h' cd = Some image' ∧
        split ":" image' = before_first_colon image :: split ":" tag ∧
        (has_colon tag = false →
         split ":" image' = [before_first_colon image; tag]).
Proof.
  intros Hvalid.
  destruct (retag_images_valid tag h td Hvalid)
    as (clean_td & h' & cds & Hrun & _ & Hcds & Himages).
  exists clean_td, h', cds. split; [done|]. split; [done|].
  intros cd Hin. destruct (Himages cd Hin) as (image & Hold & Hnew).
  exists image, (retag tag image). split; [done|]. split; [done|].
  unfold retag. rewrite split_prefix by apply before_first_colon_no_colon.
  split; [done|]. intros Htag. by rewrite split_no_colon.
Qed.

Lemma tag_read_back_witness :
  ∃ clean_td h' cds,
    sanitize_and_retag "abc123" sample_td sample_heap = (Ok clean_td, h') ∧
    containers_of h' clean_td = Some cds ∧
    ∀ cd, cd ∈ cds →
      ∃ image image',
        image_of sample_heap cd = Some image ∧ image_of h' cd = Some image' ∧
        split ":" image' = before_first_colon image :: split ":" "abc123" ∧
        (has_colon "abc123" = false →
         split ":" image' = [before_first_colon image; "abc123"]).
Proof.
  apply (tag_read_back "abc123" sample_heap sample_td).
  vm_compute. reflexivity.
Defined.

(** ** [update_td] and the envelope *)

(** X7.  [update_td] takes the document out of its envelope and returns
    the clean document without one: what it returns has no key
    [taskDefinition], and [update_td] on what it returned raises
    [KeyError] for that key, whatever the tag. *)
Theorem update_td_drops_envelope tag h data dd td :
  get_dict h data = Some dd → dd !! "taskDefinition" = Some td →
  valid_td h td = true →
  ∃ clean_td h' dc,
    update_td data tag h = (Ok clean_td, h') ∧
    sanitize_and_retag tag td h = (Ok clean_td, h') ∧
    get_dict h' clean_td = Some dc ∧ dc !! "taskDefinition" = None ∧
    ∀ tag', update_td clean_td tag' h' = (Raise (KeyError "taskDefinition"), h').
Proof.
  intros Hdata Htd Hvalid.
  apply valid_td_inv in Hvalid
    as (l & d & f & lcs & cds & -> & Hl & Hf & Hc & Hlcs & Hall).
  destruct (sanitize_valid tag h l d f lcs cds Hl Hf Hc Hlcs Hall)
    as (h' & Hrun & _ & Hclean & _).
  assert (Hnone : copy_fields d api_fields
                    (base_dict f (VRef lcs) (default (VRef (length h)) (d !! "volumes")))
                  !! "taskDefinition" = None).
  { rewrite clean_dict_base, base_dict_lookup.
    - by rewrite !decide_False.
    - unfold api_fields. rewrite !elem_of_cons, elem_of_nil.
      intros Hin. repeat destruct Hin as [Hin|Hin]; done. }
  eexists _, h', _.
  split; [by rewrite (update_td_envelope tag h data dd Hdata), Htd|].
  split; [exact Hrun|].
  split; [unfold get_dict; by rewrite Hclean|]. split; [exact Hnone|].
  intros tag'. erewrite update_td_envelope; [|unfold get_dict; by rewrite Hclean].
  by rewrite Hnone.
Qed.

Lemma update_td_drops_envelope_witness :
  ∃ clean_td h',
    update_td (VRef 4) "abc123" sample_file_heap = (Ok clean_td, h') ∧
    update_td clean_td "abc123" h' = (Raise (KeyError "taskDefinition"), h').
Proof.
  destruct (update_td_drops_envelope "abc123" sample_file_heap (VRef 4)
              (<["taskDefinition" := sample_td]> ∅) sample_td)
    as (clean_td & h' & dc & Hrun & _ & _ & _ & Hagain).
  - reflexivity.
  - vm_compute. reflexivity.
  - vm_compute. reflexivity.
  - exists clean_td, h'. split; [exact Hrun|apply Hagain].
Defined.

(** ** The paths of [deploy] *)

(** The transform on a dict that lacks a required field. *)
Lemma sanitize_missing_field h l (d : dict) k :
  h !! l = Some (ODict d) → k ∈ required_fields → d !! k = None →
  ∃ missing,
    missing ∈ required_fields ∧ d !! missing = None ∧
    ∀ tag, sanitize_and_retag tag (VRef l) h = (Raise (KeyError missing), h).
Proof.
  intros Hl Hk Hnone.
  destruct (d !! "family") as [f|] eqn:Hf.
  - exists "containerDefinitions".
    assert (Hc : d !! "containerDefinitions" = None).
    { unfold required_fields in Hk. rewrite !elem_of_cons, elem_of_nil in Hk.
      destruct Hk as [->|[->|[]]]; [congruence|done]. }
    split; [apply list_elem_of_further, list_elem_of_here|]. split; [done|].
    intros tag. unfold sanitize_and_retag, build_td.
    rewrite !bind_unfold. unfold subscript at 1. rewrite Hl, Hf.
    rewrite !bind_unfold. unfold subscript at 1. by rewrite Hl, Hc.
  - exists "family". split; [apply list_elem_of_here|]. split; [done|].
    intros tag. unfold sanitize_and_retag, build_td.
    rewrite !bind_unfold. unfold subscript at 1. by rewrite Hl, Hf.
Qed.

(** No call in a list of events failed, the return codes being known. *)
Ltac quiet :=
  cbn [existsb call_failed orb app];
  rewrite ?bool_decide_eq_false_2 by (intros Hne; by apply Hne);
  reflexivity.

Lemma line_not_success (a x y : string) :
  a ∈ ["Error describing TD: "; "Error registering TD: ";
       "Error updating service: "; "Registered new TD: "] →
  a +:+ x ≠ "Service " +:+ y.
Proof.
  rewrite !elem_of_cons, elem_of_nil.
  intros [->|[->|[->|[->|[]]]]]; discriminate.
Qed.

(** None of the lines among [Hin] is the line of a finished update. *)
Ltac no_success_line Hin :=
  repeat (destruct Hin as [Hin|Hin];
          [ symmetry in Hin; revert Hin; apply line_not_success;
            rewrite !elem_of_cons; tauto | ]);
  exact Hin.

Section DeployProperties.

Context {World : Type}.
Variable subprocess_run : list string → World → result CompletedProcess * World.
Variable json_loads : string → H value.
Variable json_dumps : value → heap → result string.
Variable format_obj : heap → value → string.

Abbreviation run_ := (run subprocess_run).
Abbreviation deploy_ := (deploy subprocess_run json_loads json_dumps format_obj).
Abbreviation main_ := (main subprocess_run json_loads json_dumps format_obj).
Abbreviation deploy_path_ :=
  (deploy_path subprocess_run json_loads json_dumps format_obj).
Abbreviation fetch_and_retag_ := (fetch_and_retag json_loads).
Abbreviation read_arn_ := (read_arn json_loads).

Lemma new_events_app (st st' : state World) evs :
  st_out st' = st_out st ++ evs → new_events st st' = evs.
Proof. intros Hout. unfold new_events. rewrite Hout. apply drop_app_length. Qed.

Lemma new_events_path (st : state World) h w evs :
  new_events st {| st_heap := h; st_world := w; st_out := st_out st ++ evs |} = evs.
Proof. by apply new_events_app. Qed.

(** An external call that returns, and one that raises. *)
Lemma run_Ok_inv cmd (st : state World) res st' :
  run_ cmd st = (Ok res, st') →
  ∃ w', subprocess_run cmd (st_world st) = (Ok res, w') ∧
        st' = {| st_heap := st_heap st; st_world := w';
                 st_out := st_out st ++ [EvRun cmd res] |}.
Proof.
  unfold run. destruct (existsb has_nul cmd); [done|].
  destruct (subprocess_run cmd (st_world st)) as [[res'|e] w']; [|done].
  intros [= <- <-]. by exists w'.
Qed.

Lemma run_Ok_no_nul cmd (st : state World) res st' :
  run_ cmd st = (Ok res, st') → existsb has_nul cmd = false.
Proof. unfold run. by destruct (existsb has_nul cmd). Qed.

Lemma run_Raise_inv cmd (st : state World) e st' :
  run_ cmd st = (Raise e, st') →
  st' = {| st_heap := st_heap st; st_world := st_world st';
           st_out := st_out st |}.
Proof.
  unfold run. destruct (existsb has_nul cmd).
  - intros [= _ <-]. by destruct st.
  - destruct (subprocess_run cmd (st_world st)) as [[res'|e'] w']; [done|].
    by intros [= _ <-].
Qed.

(** The statements of [deploy] between two external calls, taken
    together. *)
Lemma on_heap_fetch {A} (k : value → Py.M (state World) A) (st : state World) answer :
  (data ← on_heap (json_loads answer);
   td ← on_heap (subscript data "taskDefinition");
   new_td ← on_heap (sanitize_and_retag deploy_image_tag td);
   k new_td) st
  = (new_td ← on_heap (fetch_and_retag_ answer); k new_td) st.
Proof.
  rewrite !bind_unfold. unfold on_heap at 1 4, fetch_and_retag.
  rewrite bind_unfold.
  destruct (json_loads answer (st_heap st)) as [[data|e] h1]; [|done].
  rewrite !bind_unfold. unfold on_heap at 1. cbn [st_heap st_world st_out].
  destruct (subscript data "taskDefinition" h1) as [[td|e] h2]; [|done].
  rewrite !bind_unfold. unfold on_heap at 1. cbn [st_heap st_world st_out].
  by destruct (sanitize_and_retag deploy_image_tag td h2) as [[new_td|e] h3].
Qed.

Lemma on_heap_read_arn {A} (k : value → Py.M (state World) A) (st : state World) answer :
  (reg_data ← on_heap (json_loads answer);
   reg_td ← on_heap (subscript reg_data "taskDefinition");
   new_td_arn ← on_heap (subscript reg_td "taskDefinitionArn");
   k new_td_arn) st
  = (new_td_arn ← on_heap (read_arn_ answer); k new_td_arn) st.
Proof.
  rewrite !bind_unfold. unfold on_heap at 1 4, read_arn.
  rewrite bind_unfold.
  destruct (json_loads answer (st_heap st)) as [[data|e] h1]; [|done].
  rewrite !bind_unfold. unfold on_heap at 1. cbn [st_heap st_world st_out].
  destruct (subscript data "taskDefinition" h1) as [[td|e] h2]; [|done].
  rewrite !bind_unfold. unfold on_heap at 1. cbn [st_heap st_world st_out].
  by destruct (subscript td "taskDefinitionArn" h2) as [[arn|e] h3].
Qed.

(** Every call of [deploy] takes one of the eleven paths. *)
Lemma deploy_takes_path s st :
  deploy_path_ s st (deploy_ s st).1 (deploy_ s st).2.
Proof.
  destruct (deploy_ s st) as [r st'] eqn:Hdep. cbn [fst snd].
  revert Hdep. unfold deploy. rewrite bind_unfold.
  destruct (run_ (describe_cmd s) st) as [[res1|e] st1] eqn:Hrun1.
  2:{ intros [= <- <-]. pose proof (run_Raise_inv _ _ _ _ Hrun1) as Hst1.
      destruct st1 as [h1 w1 o1]. cbn in Hst1. injection Hst1 as -> ->.
      rewrite <-(app_nil_r (st_out st)) at 1. by apply path_describe_raised. }
  apply run_Ok_inv in Hrun1 as (w1 & Hrun1 & ->).
  case_bool_decide as Hrc1.
  { intros [= <- <-]. cbn [st_heap st_world st_out]. rewrite <-app_assoc.
    by eapply path_describe_failed. }
  rewrite on_heap_fetch, bind_unfold. unfold on_heap at 1.
  cbn [st_heap st_world st_out].
  destruct (fetch_and_retag_ (stdout res1) (st_heap st)) as [[new_td|e] h1] eqn:Hfetch.
  2:{ intros [= <- <-]. by eapply path_transform_raised. }
  rewrite bind_unfold. unfold dumps at 1. cbn [st_heap st_world st_out].
  destruct (json_dumps new_td h1) as [td_json|e] eqn:Hdumps.
  2:{ intros [= <- <-]. by eapply path_dumps_raised. }
  rewrite bind_unfold.
  destruct (run_ (register_cmd td_json) _) as [[res2|e] st2] eqn:Hrun2.
  2:{ intros [= <- <-]. pose proof (run_Raise_inv _ _ _ _ Hrun2) as Hst2.
      destruct st2 as [h2 w2 o2]. cbn in Hst2. injection Hst2 as -> ->.
      by eapply path_register_raised. }
  apply run_Ok_inv in Hrun2 as (w2 & Hrun2 & ->). cbn [st_heap st_world st_out] in *.
  case_bool_decide as Hrc2.
  { intros [= <- <-]. cbn [st_heap st_world st_out]. rewrite <-!app_assoc.
    by eapply path_register_failed. }
  rewrite on_heap_read_arn, bind_unfold. unfold on_heap at 1.
  cbn [st_heap st_world st_out].
  destruct (read_arn_ (stdout res2) h1) as [[new_td_arn|e] h2] eqn:Harn.
  2:{ intros [= <- <-]. rewrite <-!app_assoc. by eapply path_arn_raised. }
  rewrite bind_unfold. unfold format at 1. cbn [st_heap st_world st_out].
  rewrite bind_unfold. unfold print at 1. cbn [st_heap st_world st_out].
  rewrite bind_unfold. unfold as_arg.
  destruct new_td_arn as [| | | |arn|];
    try (intros [= <- <-]; rewrite <-!app_assoc;
         by eapply path_arn_not_str).
  unfold Py.ret. cbv beta iota. rewrite <-!app_assoc. cbn [app].
  rewrite bind_unfold.
  destruct (run_ (update_service_cmd s arn) _) as [[res3|e] st3] eqn:Hrun3.
  2:{ intros [= <- <-]. pose proof (run_Raise_inv _ _ _ _ Hrun3) as Hst3.
      destruct st3 as [h3 w3 o3]. cbn in Hst3. injection Hst3 as -> ->.
      by eapply path_update_raised. }
  apply run_Ok_inv in Hrun3 as (w3 & Hrun3 & ->). cbn [st_heap st_world st_out] in *.
  case_bool_decide as Hrc3.
  - intros [= <- <-]. cbn [st_heap st_world st_out]. rewrite <-!app_assoc.
    by eapply path_update_failed.
  - intros [= <- <-]. cbn [st_heap st_world st_out]. rewrite <-!app_assoc.
    by eapply path_updated.
Qed.

(** A call of [deploy] in which an external call came back with a
    return code other than zero returns, and its output ends with that
    call and the diagnostic. *)
Lemma deploy_call_failed s st :
  existsb call_failed (new_events st (deploy_ s st).2) = true →
  (deploy_ s st).1 = Ok () ∧ ends_reported (new_events st (deploy_ s st).2).
Proof.
  pose proof (deploy_takes_path s st) as Hpath.
  destruct (deploy_ s st) as [r st']. cbn [fst snd] in *.
  destruct Hpath; rewrite new_events_path; intros Hfailed.
  all: try (exfalso; revert Hfailed; cbn [existsb call_failed orb];
            rewrite ?bool_decide_eq_false_2 by (intros Hne; by apply Hne);
            done).
  - split; [done|].
    exists [], (describe_cmd s), res1, "Error describing TD: ".
    repeat split; [done|apply list_elem_of_here].
  - split; [done|].
    exists [EvRun (describe_cmd s) res1], (register_cmd td_json), res2,
           "Error registering TD: ".
    repeat split; [done|apply list_elem_of_further, list_elem_of_here|quiet].
  - split; [done|].
    exists [EvRun (describe_cmd s) res1; EvRun (register_cmd td_json) res2;
            EvPrint ("Registered new TD: " +:+ arn)],
           (update_service_cmd s arn), res3, "Error updating service: ".
    repeat split;
      [done|do 2 apply list_elem_of_further; apply list_elem_of_here|quiet].
Qed.

(** What a call of [deploy] adds to the output; when it returns, the one
    describe call in it is that of its service. *)
Lemma deploy_out s st :
  ∃ evs, st_out (deploy_ s st).2 = st_out st ++ evs ∧
         ((deploy_ s st).1 = Ok () → omap described evs = [s]).
Proof.
  pose proof (deploy_takes_path s st) as Hpath.
  destruct (deploy_ s st) as [r st']. cbn [fst snd] in *.
  destruct Hpath; eexists; (split; [reflexivity|]); done.
Qed.

(** The first thing a call of [deploy] does is the describe call. *)
Lemma deploy_first_call s st :
  match run_ (describe_cmd s) st with
  | (Ok res, _) =>
      ∃ evs, new_events st (deploy_ s st).2 = EvRun (describe_cmd s) res :: evs
  | (Raise e, st1) => deploy_ s st = (Raise e, st1)
  end.
Proof.
  destruct (run_ (describe_cmd s) st) as [[res|e] st1] eqn:Hrun.
  - pose proof (run_Ok_no_nul _ _ _ _ Hrun) as Hnul.
    apply run_Ok_inv in Hrun as (w1 & Hrun & _).
    pose proof (deploy_takes_path s st) as Hpath.
    destruct (deploy_ s st) as [r st']. cbn [fst snd] in *.
    destruct Hpath; rewrite new_events_path;
      try (match goal with
           | H : subprocess_run (describe_cmd s) (st_world st) = _ |- _ =>
               rewrite Hrun in H; injection H as <- <-
           end; by eexists).
    match goal with
    | H : run_ _ _ = _ |- _ => unfold run in H; by rewrite Hnul, Hrun in H
    end.
  - unfold deploy. by rewrite bind_unfold, Hrun.
Qed.

(** [main] is its two statements. *)
Lemma main_unfold st :
  main_ st =
  match (deploy_ "parrot-dev-backend" st).1 with
  | Ok _ => deploy_ "parrot-dev-frontend" (deploy_ "parrot-dev-backend" st).2
  | Raise e => (Raise e, (deploy_ "parrot-dev-backend" st).2)
  end.
Proof.
  unfold main. rewrite bind_unfold.
  by destruct (deploy_ "parrot-dev-backend" st) as [[[]|e] st1].
Qed.

(** ** Failures and what becomes of them *)

(** An exception between the describe call and [json.dumps] leaves
    [deploy] as it is. *)
Lemma deploy_transform_raised s st res1 st1 e h1 :
  run_ (describe_cmd s) st = (Ok res1, st1) → returncode res1 = 0%Z →
  fetch_and_retag_ (stdout res1) (st_heap st) = (Raise e, h1) →
  deploy_ s st
  = (Raise e, {| st_heap := h1; st_world := st_world st1;
                 st_out := st_out st ++ [EvRun (describe_cmd s) res1] |}).
Proof.
  intros Hrun Hrc Hfetch.
  apply run_Ok_inv in Hrun as Hinv. destruct Hinv as (w1 & _ & ->).
  unfold deploy. rewrite bind_unfold, Hrun.
  rewrite bool_decide_eq_false_2 by (intros Hne; by apply Hne).
  rewrite on_heap_fetch, bind_unfold. unfold on_heap at 1.
  cbn [st_heap st_world st_out]. by rewrite Hfetch.
Qed.

(** C6, as the code has it.  When an external call comes back with a
    return code other than zero, [deploy] prints a diagnostic that
    carries the error text of the tool as its last output and returns.
    Nothing else is handled: an exception raised while the answer of the
    describe call is decoded, taken out of its envelope and put through
    the transform leaves [deploy] as it is, after the describe call and
    with nothing printed, and when the service is the first of [main] it
    leaves [main] too, which does nothing for the second service.  So
    does the missing-key exception of a document that lacks a required
    field, which [update_td] raises too. *)
Theorem external_failure_reported s st :
  (existsb call_failed (new_events st (deploy_ s st).2) = true →
   (deploy_ s st).1 = Ok () ∧
   ∃ cmd res diag,
     last (st_out (deploy_ s st).2) = Some (EvPrint (diag +:+ stderr res)) ∧
     diag ∈ diagnostics ∧
     EvRun cmd res ∈ new_events st (deploy_ s st).2 ∧
     returncode res ≠ 0%Z) ∧
  (∀ res1 st1 e h1,
     run_ (describe_cmd s) st = (Ok res1, st1) → returncode res1 = 0%Z →
     fetch_and_retag_ (stdout res1) (st_heap st) = (Raise e, h1) →
     deploy_ s st
     = (Raise e, {| st_heap := h1; st_world := st_world st1;
                    st_out := st_out st ++ [EvRun (describe_cmd s) res1] |}) ∧
     (s = "parrot-dev-backend" → main_ st = deploy_ s st)) ∧
  (∀ res1 st1 data h1 dd td d k tag,
     run_ (describe_cmd s) st = (Ok res1, st1) → returncode res1 = 0%Z →
     json_loads (stdout res1) (st_heap st) = (Ok data, h1) →
     get_dict h1 data = Some dd → dd !! "taskDefinition" = Some td →
     get_dict h1 td = Some d → k ∈ required_fields → d !! k = None →
     ∃ missing,
       missing ∈ required_fields ∧ d !! missing = None ∧
       deploy_ s st
       = (Raise (KeyError missing),
          {| st_heap := h1; st_world := st_world st1;
             st_out := st_out st ++ [EvRun (describe_cmd s) res1] |}) ∧
       update_td data tag h1 = (Raise (KeyError missing), h1)).
Proof.
  split; [|split].
  - intros Hfailed.
    destruct (deploy_call_failed s st Hfailed)
      as (Hok & pre & cmd & res & diag & Hevs & Hrc & Hdiag & _).
    split; [done|]. exists cmd, res, diag.
    destruct (deploy_out s st) as (evs & Hout & _).
    rewrite (new_events_app _ _ _ Hout) in Hevs.
    split; [|split; [done|split; [|done]]].
    + rewrite Hout, Hevs.
      change [EvRun cmd res; EvPrint (diag +:+ stderr res)]
        with ([EvRun cmd res] ++ [EvPrint (diag +:+ stderr res)]).
      rewrite !app_assoc. apply last_snoc.
    + rewrite (new_events_app _ _ _ Hout), Hevs.
      apply elem_of_app. right. apply list_elem_of_here.
  - intros res1 st1 e h1 Hrun Hrc Hfetch.
    pose proof (deploy_transform_raised s st res1 st1 e h1 Hrun Hrc Hfetch) as Hdep.
    split; [done|]. intros ->. by rewrite main_unfold, Hdep.
  - intros res1 st1 data h1 dd td d k tag Hrun Hrc Hloads Hdata Htd Hd Hk Hnone.
    unfold get_dict in Hd. destruct td as [| | | | |l]; try done.
    destruct (h1 !! l) as [[d'|vs]|] eqn:Hl; try done. injection Hd as ->.
    destruct (sanitize_missing_field h1 l d k Hl Hk Hnone)
      as (missing & Hin & Hmissing & Hraise).
    exists missing. split; [done|]. split; [done|].
    assert (Hsub : subscript data "taskDefinition" h1 = (Ok (VRef l), h1)).
    { unfold get_dict in Hdata. unfold subscript.
      destruct data as [| | | | |ld]; try done.
      destruct (h1 !! ld) as [[d'|vs]|]; try done. injection Hdata as ->.
      by rewrite Htd. }
    split.
    + apply (deploy_transform_raised s st res1 st1 _ h1 Hrun Hrc).
      unfold fetch_and_retag.
      by rewrite bind_unfold, Hloads, bind_unfold, Hsub, Hraise.
    + by rewrite (update_td_envelope tag h1 data dd Hdata), Htd, Hraise.
Qed.

(** What the second of two [deploy] statements adds comes after what
    the first added. *)
Lemma deploy_twice_events s1 s2 st :
  new_events st (deploy_ s2 (deploy_ s1 st).2).2
  = new_events st (deploy_ s1 st).2
    ++ new_events (deploy_ s1 st).2 (deploy_ s2 (deploy_ s1 st).2).2.
Proof.
  destruct (deploy_out s1 st) as (evs1 & Hout1 & _).
  destruct (deploy_out s2 (deploy_ s1 st).2) as (evs2 & Hout2 & _).
  rewrite (new_events_app _ _ _ Hout1), (new_events_app _ _ _ Hout2).
  apply new_events_app. by rewrite Hout2, Hout1, app_assoc.
Qed.

Lemma deploy_described s st :
  (deploy_ s st).1 = Ok () →
  omap described (new_events st (deploy_ s st).2) = [s].
Proof.
  destruct (deploy_out s st) as (evs & Hout & Hd).
  by rewrite (new_events_app _ _ _ Hout).
Qed.

Lemma deploy_seq_unfold s1 s2 st :
  (deploy_ s1;; deploy_ s2) st =
  match (deploy_ s1 st).1 with
  | Ok _ => deploy_ s2 (deploy_ s1 st).2
  | Raise e => (Raise e, (deploy_ s1 st).2)
  end.
Proof.
  rewrite bind_unfold. by destruct (deploy_ s1 st) as [[[]|e] st1].
Qed.

(** C7.  When an external call comes back with a return code other than
    zero for a service, [deploy] returns for that service after the
    failed call and its diagnostic, without another call, and the
    [deploy] statement that follows runs from the state it left: the
    describe call of the next service is the next thing done, the first
    of the new events when it returns and the exception of the sequence
    when it raises.  A sequence of two statements that runs to its end
    has made the describe calls of its two services in their order, and
    [main] is that sequence for [parrot-dev-backend] and
    [parrot-dev-frontend]. *)
Theorem next_service_attempted s1 s2 st :
  existsb call_failed (new_events st (deploy_ s1 st).2) = true →
  (deploy_ s1 st).1 = Ok () ∧
  ends_reported (new_events st (deploy_ s1 st).2) ∧
  (deploy_ s1;; deploy_ s2) st = deploy_ s2 (deploy_ s1 st).2 ∧
  (∀ res st2,
     run_ (describe_cmd s2) (deploy_ s1 st).2 = (Ok res, st2) →
     new_events (deploy_ s1 st).2 ((deploy_ s1;; deploy_ s2) st).2 !! 0%nat
     = Some (EvRun (describe_cmd s2) res)) ∧
  (∀ e st2,
     run_ (describe_cmd s2) (deploy_ s1 st).2 = (Raise e, st2) →
     (deploy_ s1;; deploy_ s2) st = (Raise e, st2)) ∧
  (((deploy_ s1;; deploy_ s2) st).1 = Ok () →
   omap described (new_events st ((deploy_ s1;; deploy_ s2) st).2) = [s1; s2]) ∧
  main_ st = (deploy_ "parrot-dev-backend";; deploy_ "parrot-dev-frontend") st.
Proof.
  intros Hfailed. destruct (deploy_call_failed s1 st Hfailed) as [Hok Hend].
  assert (Hseq : (deploy_ s1;; deploy_ s2) st = deploy_ s2 (deploy_ s1 st).2).
  { by rewrite deploy_seq_unfold, Hok. }
  rewrite Hseq. repeat split; try done.
  - intros res st2 Hrun.
    pose proof (deploy_first_call s2 (deploy_ s1 st).2) as Hfirst.
    rewrite Hrun in Hfirst. destruct Hfirst as (evs & ->). done.
  - intros e st2 Hrun.
    pose proof (deploy_first_call s2 (deploy_ s1 st).2) as Hfirst.
    by rewrite Hrun in Hfirst.
  - intros Hok2. rewrite deploy_twice_events, omap_app.
    by rewrite (deploy_described s1 st Hok), (deploy_described s2 _ Hok2).
Qed.

(** X8.  A call of [deploy] makes at most three external calls and calls
    [print] at most twice.  When the describe call raises, [deploy]
    raises the same and has made no call; when it returns, it is the
    first call, and no other call comes first.  A second call is a
    register call, made only after the describe call returned zero; a
    third call is the update call for the service, as cluster and as
    service, made only after the register call returned zero, with the
    identifier that was printed before it. *)
Theorem deploy_calls_in_order s st :
  (∀ e st1, run_ (describe_cmd s) st = (Raise e, st1) →
     deploy_ s st = (Raise e, st1) ∧ new_events st (deploy_ s st).2 = []) ∧
  (∀ res1 st1, run_ (describe_cmd s) st = (Ok res1, st1) →
     calls (new_events st (deploy_ s st).2) !! 0%nat = Some (describe_cmd s, res1)) ∧
  (∀ cmd res, calls (new_events st (deploy_ s st).2) !! 0%nat = Some (cmd, res) →
     cmd = describe_cmd s ∧
     ∃ w1, subprocess_run (describe_cmd s) (st_world st) = (Ok res, w1)) ∧
  length (calls (new_events st (deploy_ s st).2)) ≤ 3 ∧
  length (printed (new_events st (deploy_ s st).2)) ≤ 2 ∧
  (∀ cmd res, calls (new_events st (deploy_ s st).2) !! 1%nat = Some (cmd, res) →
     ∃ res1 td_json,
       calls (new_events st (deploy_ s st).2) !! 0%nat = Some (describe_cmd s, res1) ∧
       returncode res1 = 0%Z ∧ cmd = register_cmd td_json) ∧
  (∀ cmd res, calls (new_events st (deploy_ s st).2) !! 2%nat = Some (cmd, res) →
     ∃ td_json res2 arn,
       calls (new_events st (deploy_ s st).2) !! 1%nat
       = Some (register_cmd td_json, res2) ∧
       returncode res2 = 0%Z ∧
       cmd = ["aws"; "ecs"; "update-service"; "--cluster"; s;
              "--service"; s; "--task-definition"; arn] ∧
       printed (new_events st (deploy_ s st).2) !! 0%nat
       = Some ("Registered new TD: " +:+ arn)).
Proof.
  split; [|split].
  - intros e st1 Hrun. pose proof (deploy_first_call s st) as Hfirst.
    rewrite Hrun in Hfirst. rewrite Hfirst. split; [done|]. cbn [snd].
    apply new_events_app. rewrite (run_Raise_inv _ _ _ _ Hrun). cbn [st_out].
    by rewrite app_nil_r.
  - intros res1 st1 Hrun. pose proof (deploy_first_call s st) as Hfirst.
    rewrite Hrun in Hfirst. by destruct Hfirst as (evs & ->).
  - pose proof (deploy_takes_path s st) as Hpath.
    destruct (deploy_ s st) as [r st']. cbn [fst snd] in *.
    destruct Hpath; rewrite new_events_path;
      cbn [calls printed omap list_omap length lookup list_lookup];
      (split; [intros cmd res; try done; intros [= <- <-]; eauto|]);
      (split; [lia|]); (split; [lia|]);
      (split; [intros cmd res; try done; intros [= <- <-]; eauto|]);
      intros cmd res; try done; intros [= <- <-]; eauto 10.
Qed.

(** X9.  [deploy] prints that the service was updated exactly when it
    made its three calls and each returned zero; it returns then. *)
Theorem success_line_means_three_calls s st :
  ("Service " +:+ s +:+ " updated successfully!")
    ∈ printed (new_events st (deploy_ s st).2) ↔
  (deploy_ s st).1 = Ok () ∧
  ∃ td_json arn res1 res2 res3,
    calls (new_events st (deploy_ s st).2)
    = [(describe_cmd s, res1); (register_cmd td_json, res2);
       (update_service_cmd s arn, res3)] ∧
    returncode res1 = 0%Z ∧ returncode res2 = 0%Z ∧ returncode res3 = 0%Z.
Proof.
  pose proof (deploy_takes_path s st) as Hpath.
  destruct (deploy_ s st) as [r st']. cbn [fst snd] in *.
  destruct Hpath; rewrite new_events_path;
    cbn [calls printed omap list_omap]; rewrite ?elem_of_cons, ?elem_of_nil.
  1-10: split;
    [ intros Hin; exfalso; no_success_line Hin
    | intros (_ & td_json' & arn' & r1 & r2 & r3 & Hcalls & Hr1 & Hr2 & Hr3);
      by simplify_eq ].
  split.
  - intros _. split; [done|]. by eexists _, _, _, _, _.
  - intros _. right. by left.
Qed.

(** X10.  What [deploy] registers is the document it made of the answer of
    the describe call: a register call is made only when the describe
    call returned zero and the answer, decoded, taken out of its envelope
    and put through the transform with the tag of [deploy], gave a
    document that [json.dumps] wrote out; its argument is that text. *)
Theorem registers_the_retagged_document s st td_json res2 :
  (register_cmd td_json, res2) ∈ calls (new_events st (deploy_ s st).2) →
  ∃ res1 w1 new_td h1 w2,
    subprocess_run (describe_cmd s) (st_world st) = (Ok res1, w1) ∧
    returncode res1 = 0%Z ∧
    fetch_and_retag_ (stdout res1) (st_heap st) = (Ok new_td, h1) ∧
    json_dumps new_td h1 = Ok td_json ∧
    subprocess_run (register_cmd td_json) w1 = (Ok res2, w2).
Proof.
  pose proof (deploy_takes_path s st) as Hpath.
  destruct (deploy_ s st) as [r st']. cbn [fst snd] in *.
  destruct Hpath; rewrite new_events_path;
    cbn [calls omap list_omap]; rewrite ?elem_of_cons, ?elem_of_nil;
    unfold describe_cmd, register_cmd, update_service_cmd in *;
    intros Hin; repeat destruct Hin as [Hin|Hin]; try done; simplify_eq;
    by eexists _, _, _, _, _.
Qed.

(** X11.  The service is updated to the definition that was registered: an
    update call is made only after a register call that returned zero,
    with the identifier read from the answer of that call, a string, and
    with the name of the service as the cluster and as the service. *)
Theorem updates_to_the_registered_arn s st cmd res3 :
  (cmd, res3) ∈ calls (new_events st (deploy_ s st).2) →
  cmd !! 2%nat = Some "update-service" →
  ∃ td_json res2 h1 arn h2,
    (register_cmd td_json, res2) ∈ calls (new_events st (deploy_ s st).2) ∧
    returncode res2 = 0%Z ∧
    read_arn_ (stdout res2) h1 = (Ok (VStr arn), h2) ∧
    st_heap (deploy_ s st).2 = h2 ∧
    cmd = ["aws"; "ecs"; "update-service"; "--cluster"; s;
           "--service"; s; "--task-definition"; arn].
Proof.
  pose proof (deploy_takes_path s st) as Hpath.
  destruct (deploy_ s st) as [r st']. cbn [fst snd] in *.
  destruct Hpath; rewrite new_events_path;
    cbn [calls omap list_omap st_heap]; rewrite ?elem_of_cons, ?elem_of_nil;
    unfold describe_cmd, register_cmd, update_service_cmd in *;
    intros Hin Hcmd; repeat destruct Hin as [Hin|Hin]; try done; simplify_eq;
    eexists _, _, _, _, _; (split; [right; by left|]); eauto.
Qed.

(** X12.  The tag [deploy] gives is the same for every service: when the
    answer of the describe call decodes to the envelope of a valid
    document, the document [deploy] goes on with has, for every container
    definition, the prefix of its image and [:202601151258]. *)
Theorem deploy_tag_is_constant answer h data h1 dd td :
  json_loads answer h = (Ok data, h1) →
  get_dict h1 data = Some dd → dd !! "taskDefinition" = Some td →
  valid_td h1 td = true →
  ∃ new_td h2 cds,
    fetch_and_retag_ answer h = (Ok new_td, h2) ∧
    containers_of h2 new_td = Some cds ∧
    ∀ cd, cd ∈ cds →
      ∃ image,
        image_of h1 cd = Some image ∧
        image_of h2 cd = Some (before_first_colon image +:+ ":202601151258").
Proof.
  intros Hloads Hdata Htd Hvalid.
  destruct (retag_images_valid deploy_image_tag h1 td Hvalid)
    as (new_td & h2 & cds & Hrun & _ & Hcds & Himages).
  exists new_td, h2, cds. split; [|split; [done|]].
  - unfold fetch_and_retag. rewrite bind_unfold, Hloads, bind_unfold.
    unfold get_dict in Hdata. unfold subscript.
    destruct data as [| | | | |l]; try done.
    destruct (h1 !! l) as [[d|vs]|]; try done. injection Hdata as ->.
    by rewrite Htd.
  - intros cd Hin. destruct (Himages cd Hin) as (image & Hold & Hnew).
    exists image. split; [done|]. exact Hnew.
Qed.

(** X13.  The first thing [main] does is the describe call of
    [parrot-dev-backend]: when the call returns it is the first of the
    events of [main], and when it raises [main] raises the same with
    nothing else done.  An exception that leaves the first [deploy] ends
    [main] with nothing done for [parrot-dev-frontend]; a [main] that
    runs to its end has described the two services, the backend before
    the frontend. *)
Theorem main_describes_in_order st :
  (∀ res st1,
     run_ (describe_cmd "parrot-dev-backend") st = (Ok res, st1) →
     ∃ evs, new_events st (main_ st).2
            = EvRun (describe_cmd "parrot-dev-backend") res :: evs) ∧
  (∀ e st1,
     run_ (describe_cmd "parrot-dev-backend") st = (Raise e, st1) →
     main_ st = (Raise e, st1) ∧ new_events st (main_ st).2 = []) ∧
  (∀ e, (deploy_ "parrot-dev-backend" st).1 = Raise e →
        main_ st = (Raise e, (deploy_ "parrot-dev-backend" st).2)) ∧
  ((main_ st).1 = Ok () →
   omap described (new_events st (main_ st).2)
   = ["parrot-dev-backend"; "parrot-dev-frontend"]).
Proof.
  rewrite main_unfold.
  pose proof (deploy_first_call "parrot-dev-backend" st) as Hfirst.
  split; [|split; [|split]].
  - intros res st1 Hrun. rewrite Hrun in Hfirst. destruct Hfirst as (evs & Hevs).
    destruct (deploy_ "parrot-dev-backend" st).1 eqn:Hok.
    + rewrite deploy_twice_events, Hevs. by eexists.
    + cbn [snd]. by eexists.
  - intros e st1 Hrun. rewrite Hrun in Hfirst. rewrite Hfirst. cbn [fst snd].
    split; [done|].
    apply new_events_app. rewrite (run_Raise_inv _ _ _ _ Hrun). cbn [st_out].
    by rewrite app_nil_r.
  - intros e He. by rewrite He.
  - destruct (deploy_ "parrot-dev-backend" st).1 as [[]|e] eqn:Hok; [|done].
    intros Hok2. rewrite deploy_twice_events, omap_app.
    by rewrite (deploy_described _ st Hok), (deploy_described _ _ Hok2).
Qed.

End DeployProperties.

(** The claim C6 fails in a world where the describe call answers with a
    document without a family: [main] ends with the missing-key
    exception, nothing is printed, and the second service is never
    described. *)
Lemma missing_family_crashes :
  (main scripted_run envelope_loads sample_dumps sample_format
     (start [answered "{}"; answered "{}"])).1
  = Raise (KeyError "family") ∧
  st_out (main scripted_run envelope_loads sample_dumps sample_format
            (start [answered "{}"; answered "{}"])).2
  = [EvRun (describe_cmd "parrot-dev-backend") (answered "{}")].
Proof. split; vm_compute; reflexivity. Qed.

Lemma external_failure_reported_witness :
  (deploy scripted_run sample_loads sample_dumps sample_format "svc-a"
     (start [failed])).1 = Ok () ∧
  main scripted_run envelope_loads sample_dumps sample_format
    (start [answered "{}"; answered "{}"])
  = deploy scripted_run envelope_loads sample_dumps sample_format
      "parrot-dev-backend" (start [answered "{}"; answered "{}"]) ∧
  ∃ missing,
    missing ∈ required_fields ∧
    deploy scripted_run envelope_loads sample_dumps sample_format "svc-a"
      (start [answered "{}"])
    = (Raise (KeyError missing),
       {| st_heap := [ODict ∅; ODict (<["taskDefinition" := VRef 0]> ∅)];
          st_world := [];
          st_out := [EvRun (describe_cmd "svc-a") (answered "{}")] |}) ∧
    update_td (VRef 1) "abc123"
      [ODict ∅; ODict (<["taskDefinition" := VRef 0]> ∅)]
    = (Raise (KeyError missing),
       [ODict ∅; ODict (<["taskDefinition" := VRef 0]> ∅)]).
Proof.
  split; [|split].
  - destruct (external_failure_reported scripted_run sample_loads sample_dumps
                sample_format "svc-a" (start [failed])) as (Hfailed & _ & _).
    apply Hfailed. vm_compute. reflexivity.
  - destruct (external_failure_reported scripted_run envelope_loads sample_dumps
                sample_format "parrot-dev-backend"
                (start [answered "{}"; answered "{}"])) as (_ & Hraised & _).
    destruct (Hraised (answered "{}")
                {| st_heap := []; st_world := [answered "{}"];
                   st_out := [EvRun (describe_cmd "parrot-dev-backend")
                                (answered "{}")] |}
                (KeyError "family")
                [ODict ∅; ODict (<["taskDefinition" := VRef 0]> ∅)])
      as [_ Hmain].
    + vm_compute. reflexivity.
    + reflexivity.
    + vm_compute. reflexivity.
    + by apply Hmain.
  - destruct (external_failure_reported scripted_run envelope_loads sample_dumps
                sample_format "svc-a" (start [answered "{}"]))
      as (_ & _ & Hmissing).
    destruct (Hmissing (answered "{}")
                {| st_heap := []; st_world := [];
                   st_out := [EvRun (describe_cmd "svc-a") (answered "{}")] |}
                (VRef 1)
                [ODict ∅; ODict (<["taskDefinition" := VRef 0]> ∅)]
                (<["taskDefinition" := VRef 0]> ∅) (VRef 0) ∅ "family" "abc123")
      as (missing & Hin & _ & Hdeploy & Hupdate).
    + vm_compute. reflexivity.
    + reflexivity.
    + vm_compute. reflexivity.
    + vm_compute. reflexivity.
    + vm_compute. reflexivity.
    + vm_compute. reflexivity.
    + apply list_elem_of_here.
    + reflexivity.
    + exists missing. split; [exact Hin|]. split; [exact Hdeploy|exact Hupdate].
Defined.

Lemma next_service_attempted_witness :
  (deploy scripted_run sample_loads sample_dumps sample_format "svc-a"
     (start [failed; failed])).1 = Ok () ∧
  new_events
    (deploy scripted_run sample_loads sample_dumps sample_format "svc-a"
       (start [failed; failed])).2
    ((deploy scripted_run sample_loads sample_dumps sample_format "svc-a";;
      deploy scripted_run sample_loads sample_dumps sample_format "svc-b")
       (start [failed; failed])).2 !! 0%nat
  = Some (EvRun (describe_cmd "svc-b") failed) ∧
  main scripted_run sample_loads sample_dumps sample_format
    (start [failed; failed])
  = deploy scripted_run sample_loads sample_dumps sample_format
      "parrot-dev-frontend"
      (deploy scripted_run sample_loads sample_dumps sample_format
         "parrot-dev-backend" (start [failed; failed])).2.
Proof.
  split; [|split].
  - destruct (next_service_attempted scripted_run sample_loads sample_dumps
                sample_format "svc-a" "svc-b" (start [failed; failed]))
      as (Hok & _); [vm_compute; reflexivity|exact Hok].
  - destruct (next_service_attempted scripted_run sample_loads sample_dumps
                sample_format "svc-a" "svc-b" (start [failed; failed]))
      as (_ & _ & _ & Hnext & _); [vm_compute; reflexivity|].
    eapply Hnext. vm_compute. reflexivity.
  - destruct (next_service_attempted scripted_run sample_loads sample_dumps
                sample_format "parrot-dev-backend" "parrot-dev-frontend"
                (start [failed; failed]))
      as (_ & _ & Hseq & _ & _ & _ & Hmain); [vm_compute; reflexivity|].
    rewrite Hmain. exact Hseq.
Defined.

Lemma full_world_calls :
  calls (new_events full_world
           (deploy scripted_run world_loads sample_dumps sample_format
              "web" full_world).2)
  = [(describe_cmd "web", answered "described");
     (register_cmd "{}", answered "registered");
     (update_service_cmd "web" "arn:web:4", answered "")].
Proof. vm_compute. reflexivity. Qed.

Lemma registers_the_retagged_document_witness :
  ∃ res1 w1 new_td h1 w2,
    scripted_run (describe_cmd "web") (st_world full_world) = (Ok res1, w1) ∧
    returncode res1 = 0%Z ∧
    fetch_and_retag world_loads (stdout res1) (st_heap full_world)
    = (Ok new_td, h1) ∧
    sample_dumps new_td h1 = Ok "{}" ∧
    scripted_run (register_cmd "{}") w1 = (Ok (answered "registered"), w2).
Proof.
  apply (registers_the_retagged_document scripted_run world_loads sample_dumps
           sample_format "web" full_world "{}" (answered "registered")).
  rewrite full_world_calls. apply list_elem_of_further, list_elem_of_here.
Defined.

Lemma updates_to_the_registered_arn_witness :
  ∃ td_json res2 h1 arn h2,
    (register_cmd td_json, res2)
      ∈ calls (new_events full_world
                 (deploy scripted_run world_loads sample_dumps sample_format
                    "web" full_world).2) ∧
    returncode res2 = 0%Z ∧
    read_arn world_loads (stdout res2) h1 = (Ok (VStr arn), h2) ∧
    st_heap (deploy scripted_run world_loads sample_dumps sample_format
               "web" full_world).2 = h2 ∧
    update_service_cmd "web" "arn:web:4"
    = ["aws"; "ecs"; "update-service"; "--cluster"; "web";
       "--service"; "web"; "--task-definition"; arn].
Proof.
  apply (updates_to_the_registered_arn scripted_run world_loads sample_dumps
           sample_format "web" full_world
           (update_service_cmd "web" "arn:web:4") (answered "")).
  - rewrite full_world_calls.
    do 2 apply list_elem_of_further. apply list_elem_of_here.
  - reflexivity.
Defined.

Lemma deploy_tag_is_constant_witness :
  ∃ new_td h2 cds,
    fetch_and_retag world_loads "described" [] = (Ok new_td, h2) ∧
    containers_of h2 new_td = Some cds ∧
    ∀ cd, cd ∈ cds →
      ∃ image,
        image_of (shift_obj 0 <$> sample_file_heap) cd = Some image ∧
        image_of h2 cd = Some (before_first_colon image +:+ ":202601151258").
Proof.
  apply (deploy_tag_is_constant world_loads "described" [] (VRef 4)
           (shift_obj 0 <$> sample_file_heap)
           (<["taskDefinition" := VRef 3]> ∅) (VRef 3)).
  - reflexivity.
  - vm_compute. reflexivity.
  - vm_compute. reflexivity.
  - vm_compute. reflexivity.
Defined.

(** The exceptions of [subprocess.run] leave [main]: in a world where
    the tool cannot be started, and for a command with a NUL in it. *)
Lemma tool_cannot_start :
  main scripted_run sample_loads sample_dumps sample_format (start [])
  = (Raise OSError, start []).
Proof. vm_compute. reflexivity. Qed.

Lemma nul_in_service_name :
  deploy scripted_run sample_loads sample_dumps sample_format
    (String "000" "web") (start [answered "{}"])
  = (Raise ValueError, start [answered "{}"]).
Proof. vm_compute. reflexivity. Qed.

(** ** [update_td.py] and the files *)

Section UpdateTdScriptProperties.

Variable json_load : string → H value.
Variable json_dump : value → heap → string * option exn.

Abbreviation update_td_file_ := (update_td_file json_load json_dump).
Abbreviation update_td_main_ := (update_td_main json_load json_dump).

(** X14.  The script writes to the file only once the transform has
    returned: when an argument is missing, when the file is not there,
    when its text does not decode, when the envelope or a required field
    is missing or a container definition is not as it should be, the
    files are left as they were.  When the files do change, the file
    named first holds what [json.dump] wrote of the clean document. *)
Theorem written_only_after_transform argv s :
  dk_files (update_td_main_ argv s).2 ≠ dk_files s →
  ∃ filename tag text clean_td h',
    argv !! 1%nat = Some filename ∧ argv !! 2%nat = Some tag ∧
    dk_files s !! filename = Some text ∧
    (data ← json_load text; update_td data tag) (dk_heap s) = (Ok clean_td, h') ∧
    dk_files (update_td_main_ argv s).2
    = <[filename := (json_dump clean_td h').1]> (dk_files s).
Proof.
  unfold update_td_main.
  destruct (argv !! 1%nat) as [filename|] eqn:H1; [|done].
  destruct (argv !! 2%nat) as [tag|] eqn:H2; [|done].
  unfold update_td_file.
  destruct (dk_files s !! filename) as [text|] eqn:Hfile; [|done].
  destruct ((data ← json_load text; update_td data tag) (dk_heap s))
    as [[clean_td|e] h'] eqn:Hrun; [|done].
  intros _. exists filename, tag, text, clean_td, h'.
  by destruct (json_dump clean_td h') as [written raised].
Qed.

(** X15.  The script touches no file but the one named by its first
    argument, and it neither makes a file nor takes one away. *)
Theorem other_files_kept argv s :
  (∀ path, argv !! 1%nat ≠ Some path →
           dk_files (update_td_main json_load json_dump argv s).2 !! path
           = dk_files s !! path) ∧
  (∀ path,
     is_Some (dk_files (update_td_main json_load json_dump argv s).2 !! path) ↔
     is_Some (dk_files s !! path)).
Proof.
  unfold update_td_main.
  destruct (argv !! 1%nat) as [filename|] eqn:H1; [|done].
  destruct (argv !! 2%nat) as [tag|] eqn:H2; [|done].
  unfold update_td_file.
  destruct (dk_files s !! filename) as [text|] eqn:Hfile; [|done].
  destruct ((data ← json_load text; update_td data tag) (dk_heap s))
    as [[clean_td|e] h'] eqn:Hrun; [|done].
  destruct (json_dump clean_td h') as [written raised]. cbn [snd dk_files].
  split.
  - intros path Hpath. rewrite lookup_insert_ne; [done|]. congruence.
  - intros path. destruct (decide (path = filename)) as [->|Hne].
    + rewrite lookup_insert_eq, Hfile. split; eauto.
    + by rewrite lookup_insert_ne.
Qed.

End UpdateTdScriptProperties.

Lemma written_only_after_transform_witness :
  ∃ filename tag text clean_td h',
    ["update_td.py"; "td.json"; "abc123"] !! 1%nat = Some filename ∧
    ["update_td.py"; "td.json"; "abc123"] !! 2%nat = Some tag ∧
    dk_files sample_disk !! filename = Some text ∧
    (data ← sample_doc_loads text; update_td data tag) (dk_heap sample_disk)
    = (Ok clean_td, h') ∧
    dk_files (update_td_main sample_doc_loads sample_dump
                ["update_td.py"; "td.json"; "abc123"] sample_disk).2
    = <[filename := (sample_dump clean_td h').1]> (dk_files sample_disk).
Proof.
  apply (written_only_after_transform sample_doc_loads sample_dump
           ["update_td.py"; "td.json"; "abc123"] sample_disk).
  intros Heq.
  assert (Hfile : dk_files (update_td_main sample_doc_loads sample_dump
                    ["update_td.py"; "td.json"; "abc123"] sample_disk).2
                  !! "td.json" = Some "sample") by (by rewrite Heq).
  vm_compute in Hfile. discriminate Hfile.
Defined.
